(** * Business routes of the bottle-crush backend

    A shallow embedding of [app/routes/business.py]: the five request
    handlers ([create_business], [get_business], [get_all_businesses],
    [delete_business], [get_my_businesses]) and the serialisation helper
    [serialize_business_with_owner], over an explicit model of the ORM
    session they talk to.

    Conventions.
    - Python [int] is [Z]; [str] is [string]; [bytes] is [list byte];
      a [dict] with string keys is a [gmap string _].
    - A handler is a computation in the monad [M]: it threads the ORM
      [Session] and either returns a value or raises an exception, as the
      Python code does with [try]/[except]/[raise].
    - Library calls are modelled by what they are documented to do:
      [json.loads] by its outcome (the request carries the decoded
      dictionary, or nothing when the text is not JSON; the form fields
      are JSON objects whose values are strings), [base64.b64encode]
      and [datetime.isoformat] by executable definitions.
    - The database is reliable: a statement fails only where the handler
      itself raises.  Rows of a query come in table order. *)

From Stdlib Require Import ZArith Strings.Byte Ascii String List.
From stdpp Require Import base tactics option list strings gmap fin_maps pretty.

Open Scope Z_scope.
Open Scope string_scope.

(** ** Python values *)

(** [datetime.datetime], naive (no time zone), as the ORM hands it out. *)
Record datetime := mk_datetime {
  year : N; month : N; day : N;
  hour : N; minute : N; second : N; microsecond : N
}.

(** The values that occur as attributes of a row and as entries of a
    response dictionary.  [PState] is SQLAlchemy's [_sa_instance_state]. *)
Inductive pyval :=
| PNone
| PBool (b : bool)
| PInt (z : Z)
| PStr (s : string)
| PBytes (l : list byte)
| PDatetime (d : datetime)
| PState.

(** ** Exceptions *)

(** The exceptions that travel through the handlers.  An f-string that
    embeds [str(e)] is kept unevaluated as [Fmt prefix e]. *)
Inductive exn :=
| JSONDecodeError
| KeyError (key : string)
| TypeError (msg : string)
| SQLAlchemyError (msg : string)
| HTTPException (status_code : Z) (detail : fstring)
with fstring :=
| Lit (s : string)
| Fmt (s : string) (e : exn).

(** [isinstance(e, SQLAlchemyError)] *)
Definition is_SQLAlchemyError (e : exn) : bool :=
  match e with SQLAlchemyError _ => true | _ => false end.

(** ** Tables *)

(** Modelled from the spec: [app.models] is not among the sources.  The
    columns are those the handlers read or write, together with the flags
    and time stamps the data model lists. *)
Record User := mk_User {
  user_id : Z;
  email : string;
  password : string;
  role : string;
  user_is_active : bool;
  user_is_deleted : bool;
  user_created_by : Z;
  user_updated_by : Z
}.

Record Business := mk_Business {
  id : Z;
  name : string;
  mobile : string;
  logo_image : option (list byte);
  business_owner : Z;
  created_by : Z;
  updated_by : Z;
  created_at : datetime;
  updated_at : datetime;
  is_active : bool;
  is_deleted : bool
}.

(** The stored state: both tables in insertion order and the two
    auto-increment counters. *)
Record Database := mk_Database {
  users : list User;
  businesses : list Business;
  next_user_id : Z;
  next_business_id : Z
}.

(** An ORM session: what is committed, and the session's own view, which
    additionally holds the rows added since the last commit. *)
Record Session := mk_Session {
  committed : Database;
  working : Database
}.

Definition open_session (d : Database) : Session :=
  {| committed := d; working := d |}.

(** ** The handler monad *)

Inductive outcome (A : Type) :=
| Ok (a : A)
| Exc (e : exn).
Arguments Ok {A} a.
Arguments Exc {A} e.

Definition M (A : Type) : Type := Session -> outcome A * Session.

Definition ret {A} (a : A) : M A := fun s => (Ok a, s).

Definition raise {A} (e : exn) : M A := fun s => (Exc e, s).

Definition bind {A B} (c : M A) (k : A -> M B) : M B :=
  fun s =>
    match c s with
    | (Ok a, s') => k a s'
    | (Exc e, s') => (Exc e, s')
    end.

Notation "'do' x <- c ; k" := (bind c (fun x => k))
  (at level 10, x name, c at level 100, k at level 200).
Notation "c ;; k" := (bind c (fun _ => k))
  (at level 100, k at level 200, right associativity).

(** [try: body  except <class> as e: handler(e)], where [catches] tells
    which exceptions the [except] clause names. *)
Definition try_except {A} (body : M A) (catches : exn -> bool)
    (handler : exn -> M A) : M A :=
  fun s =>
    match body s with
    | (Ok a, s') => (Ok a, s')
    | (Exc e, s') => if catches e then handler e s' else (Exc e, s')
    end.

(** [except Exception] names every exception of the model. *)
Definition Exception (e : exn) : bool := true.

(** [d[k]] on a dictionary. *)
Definition getitem {V} (d : gmap string V) (k : string) : M V :=
  match d !! k with
  | Some v => ret v
  | None => raise (KeyError k)
  end.

(** ** Session operations *)

Definition get_working : M Database := fun s => (Ok (working s), s).

(** [db.query(User).filter(User.email == e).first()] *)
Definition query_user_by_email (e : string) : M (option User) :=
  do d <- get_working;
  ret (head (filter (fun u => email u = e) (users d))).

(** [db.query(Business).filter(Business.name == n).first()] *)
Definition query_business_by_name (n : string) : M (option Business) :=
  do d <- get_working;
  ret (head (filter (fun b => name b = n) (businesses d))).

(** [db.query(Business).filter(Business.id == i).first()] *)
Definition query_business_by_id (i : Z) : M (option Business) :=
  do d <- get_working;
  ret (head (filter (fun b => id b = i) (businesses d))).

(** The three statements the handlers issue, on a stored state. *)
Definition insert_user (u : User) (d : Database) : Database :=
  {| users := users d ++ [u];
     businesses := businesses d;
     next_user_id := next_user_id d + 1;
     next_business_id := next_business_id d |}.

Definition insert_business (b : Business) (d : Database) : Database :=
  {| users := users d;
     businesses := businesses d ++ [b];
     next_user_id := next_user_id d;
     next_business_id := next_business_id d + 1 |}.

(** [DELETE FROM business WHERE id = i] *)
Definition delete_row (i : Z) (d : Database) : Database :=
  {| users := users d;
     businesses := filter (fun b => id b <> i) (businesses d);
     next_user_id := next_user_id d;
     next_business_id := next_business_id d |}.

(** [db.add(u)] for a new [User], given as the row it becomes once it has
    an identifier: the row joins the session's view under the next
    identifier, which the later [db.refresh] makes visible on the object. *)
Definition db_add_user (u : Z -> User) : M User :=
  fun s =>
    let u' := u (next_user_id (working s)) in
    (Ok u',
     {| committed := committed s; working := insert_user u' (working s) |}).

(** [db.add(b)] for a new [Business]. *)
Definition db_add_business (b : Z -> Business) : M Business :=
  fun s =>
    let b' := b (next_business_id (working s)) in
    (Ok b',
     {| committed := committed s;
        working := insert_business b' (working s) |}).

(** [db.delete(b)] *)
Definition db_delete (b : Business) : M unit :=
  fun s =>
    (Ok tt,
     {| committed := committed s; working := delete_row (id b) (working s) |}).

(** [db.commit()] *)
Definition db_commit : M unit :=
  fun s => (Ok tt, {| committed := working s; working := working s |}).

(** [db.rollback()]: only what has not been committed is dropped. *)
Definition db_rollback : M unit :=
  fun s => (Ok tt, {| committed := committed s; working := committed s |}).

(** ** Library functions the handlers call *)

(** [len(b)] on [bytes]. *)
Definition len (l : list byte) : Z := Z.of_nat (length l).

(** [json.loads(text)], given the outcome of decoding [text]: the decoded
    dictionary, or nothing when the text is not JSON. *)
Definition json_loads (decoded : option (gmap string string))
    : M (gmap string string) :=
  match decoded with
  | Some d => ret d
  | None => raise JSONDecodeError
  end.

Definition is_JSONDecodeError (e : exn) : bool :=
  match e with JSONDecodeError => true | _ => false end.

Definition b64_alphabet : string :=
  "ABCDEFGHIJKLMNOPQRSTUVWXYZabcdefghijklmnopqrstuvwxyz0123456789+/".

Definition b64_char (n : N) : ascii :=
  match String.get (N.to_nat n) b64_alphabet with
  | Some c => c
  | None => "="%char
  end.

(** [base64.b64encode(l).decode("utf-8")]: three bytes give four
    characters, the last group is padded with [=]. *)
Fixpoint b64encode (l : list byte) : string :=
  match l with
  | [] => ""
  | [a] =>
      let a := Byte.to_N a in
      String (b64_char (a / 4))
        (String (b64_char ((a mod 4) * 16)) "==")
  | [a; b] =>
      let a := Byte.to_N a in
      let b := Byte.to_N b in
      String (b64_char (a / 4))
        (String (b64_char ((a mod 4) * 16 + b / 16))
           (String (b64_char ((b mod 16) * 4)) "="))
  | a :: b :: c :: rest =>
      let a := Byte.to_N a in
      let b := Byte.to_N b in
      let c := Byte.to_N c in
      String (b64_char (a / 4))
        (String (b64_char ((a mod 4) * 16 + b / 16))
           (String (b64_char ((b mod 16) * 4 + c / 64))
              (String (b64_char (c mod 64)) (b64encode rest))))
  end%N.

Fixpoint zeros (k : nat) : string :=
  match k with
  | O => ""
  | S k => String "0" (zeros k)
  end.

(** ["%0<w>d" % n] for a natural number. *)
Definition zfill (w : nat) (n : N) : string :=
  let s := pretty n in
  zeros (w - String.length s) ++ s.

(** [d.isoformat()] of a naive [datetime]:
    [YYYY-MM-DDTHH:MM:SS], followed by [.ffffff] when the microseconds
    are not zero. *)
Definition isoformat (d : datetime) : string :=
  zfill 4 (year d) ++ "-" ++ zfill 2 (month d) ++ "-" ++ zfill 2 (day d)
  ++ "T"
  ++ zfill 2 (hour d) ++ ":" ++ zfill 2 (minute d) ++ ":" ++ zfill 2 (second d)
  ++ (if (microsecond d =? 0)%N then "" else "." ++ zfill 6 (microsecond d)).

(** [key.startswith("_")] *)
Definition startswith (key p : string) : bool := String.prefix p key.

(** ** Requests and responses *)

(** The authenticated caller, as the auth dependencies hand it to a
    handler: [current_user["id"]] and [current_user["role"]]. *)
Record CurrentUser := mk_CurrentUser {
  cu_id : Z;
  cu_role : string
}.

(** The body of a 200 response: a JSON object, or the object
    [{"businesses": [...]}] of the two listings. *)
Inductive content :=
| Dict (d : gmap string pyval)
| BusinessList (l : list (gmap string pyval)).

(** The HTTP status the framework answers with: 200 when the handler
    returns, the status of an [HTTPException], and 500 for any other
    exception that leaves the handler. *)
Definition status_of {A} (o : outcome A) : Z :=
  match o with
  | Ok _ => 200
  | Exc (HTTPException s _) => s
  | Exc _ => 500
  end.

(** [User(email=.., password=.., role=.., created_by=.., updated_by=..)]
    before the database has given it an identifier. *)
Definition new_User (email password role : string)
    (created_by updated_by : Z) : Z -> User :=
  fun i => {| user_id := i; email := email; password := password;
              role := role; user_is_active := true; user_is_deleted := false;
              user_created_by := created_by; user_updated_by := updated_by |}.

(** [Business(name=.., mobile=.., logo_image=.., business_owner=..,
    created_by=.., updated_by=..)]; the time stamps default to the clock
    reading [now]. *)
Definition new_Business (name mobile : string) (logo_image : option (list byte))
    (business_owner created_by updated_by : Z) (now : datetime)
    : Z -> Business :=
  fun i => {| id := i; name := name; mobile := mobile;
              logo_image := logo_image; business_owner := business_owner;
              created_by := created_by; updated_by := updated_by;
              created_at := now; updated_at := now;
              is_active := true; is_deleted := false |}.

(** ** The handlers *)

(** [POST /create_business].  [business_data] and [user_data] are the two
    form fields as [json.loads] decodes them, [logo_image] is the content
    of the uploaded file when one is sent, [now] the clock reading. *)
Definition create_business
    (business_data user_data : option (gmap string string))
    (logo_image : option (list byte))
    (current_user : CurrentUser) (now : datetime) : M content :=
  do parsed <-
    try_except
      (do business_data <- json_loads business_data;
       do user_data <- json_loads user_data;
       ret (business_data, user_data))
      is_JSONDecodeError
      (fun e => raise (HTTPException 400 (Fmt "Invalid JSON data: " e)));
  let business_data := fst parsed in
  let user_data := snd parsed in
  (* Step 1: validate and create the user *)
  do new_user <-
    try_except
      (do e <- getitem user_data "email";
       do existing_user <- query_user_by_email e;
       match existing_user with
       | Some existing_user => ret existing_user
       | None =>
           do e <- getitem user_data "email";
           do p <- getitem user_data "password";
           do new_user <-
             db_add_user
               (new_User e p "t_customer"
                  (cu_id current_user) (cu_id current_user));
           db_commit;;
           ret new_user
       end)
      is_SQLAlchemyError
      (fun e =>
         db_rollback;;
         raise (HTTPException 500 (Fmt "Error creating user: " e)));
  (* Step 2: validate if the business already exists *)
  try_except
    (do n <- getitem business_data "name";
     do existing_business <- query_business_by_name n;
     match existing_business with
     | Some _ =>
         raise (HTTPException 400
                  (Lit "Business with this name already exists"))
     | None => ret tt
     end)
    Exception
    (fun e => raise (HTTPException 500 (Fmt "Error checking business: " e)));;
  (* Step 3: handle the logo file *)
  do logo_binary <-
    try_except
      (match logo_image with
       | Some logo_binary =>
           if (len logo_binary >? 5 * 1024 * 1024)%Z
           then raise (HTTPException 400 (Lit "File is too large"))
           else ret (Some logo_binary)
       | None => ret None
       end)
      Exception
      (fun e =>
         db_rollback;;
         raise (HTTPException 400 (Fmt "Error reading file: " e)));
  (* Step 4: create the business record *)
  do new_business <-
    try_except
      (do n <- getitem business_data "name";
       do m <- getitem business_data "mobile";
       do new_business <-
         db_add_business
           (new_Business n m logo_binary (user_id new_user)
              (cu_id current_user) (cu_id current_user) now);
       db_commit;;
       ret new_business)
      Exception
      (fun e =>
         db_rollback;;
         raise (HTTPException 500 (Fmt "Error creating business: " e)));
  ret (Dict
         (<["message" := PStr "Business and user created successfully"]>
         (<["business_id" := PInt (id new_business)]>
         (<["user_id" := PInt (user_id new_user)]> ∅)))).

(** [GET /business/{business_id}] *)
Definition get_business (business_id : Z) : M content :=
  do business <- query_business_by_id business_id;
  match business with
  | None => raise (HTTPException 404 (Lit "Business not found"))
  | Some business =>
      let logo_image_base64 :=
        match logo_image business with
        | Some (x :: l) => PStr (b64encode (x :: l))
        | Some [] | None => PNone
        end in
      ret (Dict
             (<["id" := PInt (id business)]>
             (<["name" := PStr (name business)]>
             (<["mobile" := PStr (mobile business)]>
             (<["logo_image" := logo_image_base64]>
             (<["created_by" := PInt (created_by business)]>
             (<["updated_by" := PInt (updated_by business)]>
             (<["created_at" := PStr (isoformat (created_at business))]>
             (<["updated_at" := PStr (isoformat (updated_at business))]>
                ∅)))))))))
  end.

(** [vars(business)]: the attributes of a loaded row, with the ORM's
    private bookkeeping entry. *)
Definition vars (business : Business) : gmap string pyval :=
  <["_sa_instance_state" := PState]>
  (<["id" := PInt (id business)]>
  (<["name" := PStr (name business)]>
  (<["mobile" := PStr (mobile business)]>
  (<["logo_image" := match logo_image business with
                     | Some l => PBytes l
                     | None => PNone
                     end]>
  (<["business_owner" := PInt (business_owner business)]>
  (<["created_by" := PInt (created_by business)]>
  (<["updated_by" := PInt (updated_by business)]>
  (<["created_at" := PDatetime (created_at business)]>
  (<["updated_at" := PDatetime (updated_at business)]>
  (<["is_active" := PBool (is_active business)]>
  (<["is_deleted" := PBool (is_deleted business)]> ∅))))))))))).

(** The loop over [business_dict.items()] that replaces each [datetime]
    by its text. *)
Definition handle_datetime (value : pyval) : pyval :=
  match value with
  | PDatetime d => PStr (isoformat d)
  | _ => value
  end.

Definition serialize_business_with_owner
    (business : Business) (owner_email : string) : M (gmap string pyval) :=
  let business_dict :=
    filter (fun kv => startswith (fst kv) "_" = false) (vars business) in
  let business_dict := handle_datetime <$> business_dict in
  do business_dict <-
    match business_dict !! "logo_image" with
    | None | Some PNone => ret business_dict
    | Some (PBytes l) =>
        ret (<["logo_image" := PStr (b64encode l)]> business_dict)
    | Some _ =>
        raise (TypeError "a bytes-like object is required")
    end;
  ret (<["owner_email" := PStr owner_email]> business_dict).

(** [[f(x) for x in l]] for a function that may raise. *)
Fixpoint comprehension {A B} (f : A -> M B) (l : list A) : M (list B) :=
  match l with
  | [] => ret []
  | x :: l =>
      do y <- f x;
      do ys <- comprehension f l;
      ret (y :: ys)
  end.

(** [db.query(Business, User.email.label("owner_email"))
       .join(User, Business.business_owner == User.id)] *)
Definition join_owner (d : Database) : list (Business * string) :=
  flat_map
    (fun b =>
       map (fun u => (b, email u))
         (filter (fun u => business_owner b = user_id u) (users d)))
    (businesses d).

(** [GET /businesses].  [skip] and [limit] are natural numbers: what a
    database does with a negative offset or limit is not modelled. *)
Definition get_all_businesses (skip limit : nat) : M content :=
  do d <- get_working;
  let businesses := take limit (drop skip (join_owner d)) in
  match businesses with
  | [] => raise (HTTPException 404 (Lit "No businesses found"))
  | _ =>
      do serialized_businesses <-
        comprehension
          (fun row => serialize_business_with_owner (fst row) (snd row))
          businesses;
      ret (BusinessList serialized_businesses)
  end.

(** [DELETE /business/{business_id}] *)
Definition delete_business (business_id : Z) (current_user : CurrentUser)
    : M content :=
  do business <- query_business_by_id business_id;
  match business with
  | None => raise (HTTPException 404 (Lit "Business not found"))
  | Some business =>
      if negb (String.eqb (cu_role current_user) "t_admin")
      then raise (HTTPException 403
                    (Lit "Not authorized to delete this business"))
      else
        try_except
          (db_delete business;;
           db_commit)
          Exception
          (fun e =>
             db_rollback;;
             raise (HTTPException 500 (Fmt "Error deleting business: " e)));;
        ret (Dict
               (<["message" := PStr "Business deleted successfully"]>
               (<["business_id" := PInt business_id]> ∅)))
  end.

(** [GET /my-business] *)
Definition get_my_businesses (skip limit : nat) (current_user : CurrentUser)
    : M content :=
  do d <- get_working;
  let businesses :=
    take limit
      (drop skip
         (filter (fun row => business_owner (fst row) = cu_id current_user)
            (join_owner d))) in
  match businesses with
  | [] =>
      raise (HTTPException 404
               (Lit "No businesses found for the current user"))
  | _ =>
      do serialized_businesses <-
        comprehension
          (fun row => serialize_business_with_owner (fst row) (snd row))
          businesses;
      ret (BusinessList serialized_businesses)
  end.

(** Running a handler on a stored state: the request opens a session on
    the database, and what is committed when the handler ends is the new
    stored state. *)
Definition run {A} (h : M A) (d : Database) : outcome A * Database :=
  let r := h (open_session d) in
  (fst r, committed (snd r)).

(** ** Auxiliary definitions for the statements *)

(** What the database guarantees of its primary keys: identifiers handed
    out so far lie below the counters, and no two rows share one. *)
Definition db_wf (d : Database) : Prop :=
  Forall (fun u => user_id u < next_user_id d) (users d) /\
  Forall (fun b => id b < next_business_id d) (businesses d) /\
  NoDup (map user_id (users d)) /\
  NoDup (map id (businesses d)).

(** The body [create_business] answers with. *)
Definition created (business_id user_id : Z) : content :=
  Dict
    (<["message" := PStr "Business and user created successfully"]>
    (<["business_id" := PInt business_id]>
    (<["user_id" := PInt user_id]> ∅))).

(** The upload passes the size check of step 3. *)
Definition in_limit (logo_image : option (list byte)) : Prop :=
  match logo_image with
  | Some l => len l <= 5 * 1024 * 1024
  | None => True
  end.

(** The dictionary [serialize_business_with_owner] builds for a row:
    the public attributes, time stamps as text, the logo in base64, and
    the owner's email. *)
Definition serialized (b : Business) (owner_email : string)
    : gmap string pyval :=
  let business_dict :=
    handle_datetime <$>
      filter (fun kv => startswith (fst kv) "_" = false) (vars b) in
  <["owner_email" := PStr owner_email]>
    match logo_image b with
    | Some l => <["logo_image" := PStr (b64encode l)]> business_dict
    | None => business_dict
    end.

(** The rows the two listings select before serialising them. *)
Definition all_rows (skip limit : nat) (d : Database)
    : list (Business * string) :=
  take limit (drop skip (join_owner d)).

Definition my_rows (skip limit : nat) (current_user : CurrentUser)
    (d : Database) : list (Business * string) :=
  take limit
    (drop skip
       (filter (fun row => business_owner (fst row) = cu_id current_user)
          (join_owner d))).

(** Steps 2 to 4 of [create_business] read as a decision tree: on the
    stored state [d] reached after step 1, with [owner] the identifier of
    the user step 1 settled on.  [create_business_run] shows that the
    handler computes exactly this. *)
Definition business_steps (bd : gmap string string)
    (logo : option (list byte)) (cu : CurrentUser) (now : datetime)
    (owner : Z) (d : Database) : outcome content * Database :=
  match bd !! "name" with
  | None =>
      (Exc (HTTPException 500
              (Fmt "Error checking business: " (KeyError "name"))), d)
  | Some n =>
      match head (filter (fun b => name b = n) (businesses d)) with
      | Some _ =>
          (Exc (HTTPException 500
                  (Fmt "Error checking business: "
                     (HTTPException 400
                        (Lit "Business with this name already exists")))),
           d)
      | None =>
          if match logo with
             | Some l => len l >? 5 * 1024 * 1024
             | None => false
             end
          then
            (Exc (HTTPException 400
                    (Fmt "Error reading file: "
                       (HTTPException 400 (Lit "File is too large")))), d)
          else
            match bd !! "mobile" with
            | None =>
                (Exc (HTTPException 500
                        (Fmt "Error creating business: "
                           (KeyError "mobile"))), d)
            | Some m =>
                (Ok (created (next_business_id d) owner),
                 insert_business
                   (new_Business n m logo owner (cu_id cu) (cu_id cu) now
                      (next_business_id d)) d)
            end
      end
  end.

(** The whole of [create_business] as a decision tree. *)
Definition create_business_outcome
    (business_data user_data : option (gmap string string))
    (logo : option (list byte)) (cu : CurrentUser) (now : datetime)
    (d : Database) : outcome content * Database :=
  match business_data, user_data with
  | Some bd, Some ud =>
      match ud !! "email" with
      | None => (Exc (KeyError "email"), d)
      | Some e =>
          match head (filter (fun u => email u = e) (users d)) with
          | Some u0 => business_steps bd logo cu now (user_id u0) d
          | None =>
              match ud !! "password" with
              | None => (Exc (KeyError "password"), d)
              | Some p =>
                  business_steps bd logo cu now (next_user_id d)
                    (insert_user
                       (new_User e p "t_customer" (cu_id cu) (cu_id cu)
                          (next_user_id d)) d)
              end
          end
      end
  | _, _ =>
      (Exc (HTTPException 400 (Fmt "Invalid JSON data: " JSONDecodeError)), d)
  end.

(** Every business is owned by a stored user: the foreign key
    [business_owner -> User.id]. *)
Definition owners_exist (d : Database) : Prop :=
  Forall
    (fun b => exists u, u ∈ users d /\ user_id u = business_owner b)
    (businesses d).

(** ** Sample data *)

Definition t0 : datetime := mk_datetime 2024 1 2 3 4 5 0.

Definition admin : CurrentUser := mk_CurrentUser 1 "t_admin".

Definition root_user : User :=
  mk_User 1 "root@example.com" "secret" "t_admin" true false 1 1.

Definition alice : User :=
  mk_User 2 "alice@example.com" "hunter2" "t_customer" true false 1 1.

Definition bob : User :=
  mk_User 3 "bob@example.com" "letmein" "t_customer" true false 1 1.

Definition acme : Business :=
  mk_Business 1 "Acme" "9876543210" (Some ["M"%byte; "a"%byte]) 2 1 1 t0 t0
    true false.

Definition bolt : Business :=
  mk_Business 2 "Bolt" "9123456780" None 3 1 1 t0 t0 true false.

(** A business whose logo column holds a value of zero bytes. *)
Definition blank : Business :=
  mk_Business 3 "Blank" "9000000000" (Some []) 2 1 1 t0 t0 true false.

(** Only the administrator is registered. *)
Definition db_fresh : Database := mk_Database [root_user] [] 2 1.

(** Alice owns Acme and Blank, Bob owns Bolt. *)
Definition db_sample : Database :=
  mk_Database [root_user; alice; bob] [acme; bolt; blank] 4 4.

(** The form field [{"name": "Acme", "mobile": "9876543210"}]. *)
Definition acme_form : gmap string string :=
  <["name" := "Acme"]> (<["mobile" := "9876543210"]> ∅).

(** The form field [{"name": "Cargo", "mobile": "9555555555"}]. *)
Definition cargo_form : gmap string string :=
  <["name" := "Cargo"]> (<["mobile" := "9555555555"]> ∅).

(** The form field
    [{"email": "alice@example.com", "password": "hunter2", "role": "t_admin"}]. *)
Definition alice_form : gmap string string :=
  <["email" := "alice@example.com"]>
  (<["password" := "hunter2"]> (<["role" := "t_admin"]> ∅)).

(** The form field [{"email": "carol@example.com", "password": "pass123"}]. *)
Definition carol_form : gmap string string :=
  <["email" := "carol@example.com"]> (<["password" := "pass123"]> ∅).

(** An upload of 5 MiB and one byte. *)
Definition oversized_logo : list byte :=
  replicate (Z.to_nat (5 * 1024 * 1024 + 1)) x00.

(** * Properties *)

(** ** The library functions *)

(** Induction on a byte string three bytes at a time, as [b64encode]
    consumes it. *)
Lemma list_ind3 {A} (P : list A -> Prop) :
  P [] -> (forall a, P [a]) -> (forall a b, P [a; b]) ->
  (forall a b c l, P l -> P (a :: b :: c :: l)) ->
  forall l, P l.
Proof.
  intros H0 H1 H2 H3.
  fix IH 1. intros [|a [|b [|c l]]]; [exact H0 | apply H1 | apply H2 |].
  apply H3. apply IH.
Qed.

(** Base64 text has four characters for every three bytes begun. *)
Lemma b64encode_length (l : list byte) :
  String.length (b64encode l) = (4 * ((length l + 2) / 3))%nat.
Proof.
  induction l as [| a | a b | a b c l IH] using list_ind3; try reflexivity.
  cbn [b64encode String.length length]. rewrite IH.
  replace (S (S (S (length l))) + 2)%nat with (1 * 3 + (length l + 2))%nat by lia.
  rewrite Nat.div_add_l by lia. lia.
Qed.

(** The test vectors of RFC 4648. *)
Example b64encode_rfc4648 :
  b64encode [] = "" /\
  b64encode ["f"%byte] = "Zg==" /\
  b64encode ["f"%byte; "o"%byte] = "Zm8=" /\
  b64encode ["f"%byte; "o"%byte; "o"%byte] = "Zm9v" /\
  b64encode ["f"%byte; "o"%byte; "o"%byte; "b"%byte] = "Zm9vYg==" /\
  b64encode ["f"%byte; "o"%byte; "o"%byte; "b"%byte; "a"%byte] = "Zm9vYmE=" /\
  b64encode ["f"%byte; "o"%byte; "o"%byte; "b"%byte; "a"%byte; "r"%byte]
    = "Zm9vYmFy".
Proof. repeat split; reflexivity. Qed.

(** Zero microseconds are left out; fields are padded with zeros. *)
Example isoformat_samples :
  isoformat t0 = "2024-01-02T03:04:05" /\
  isoformat (mk_datetime 987 11 22 13 14 15 678) = "0987-11-22T13:14:15.000678".
Proof. split; vm_compute; reflexivity. Qed.

(** The three entries of the answer of [create_business]. *)
Lemma created_lookup (business_id user_id : Z) :
  match created business_id user_id with
  | Dict resp =>
      resp !! "message" = Some (PStr "Business and user created successfully")
      /\ resp !! "business_id" = Some (PInt business_id)
      /\ resp !! "user_id" = Some (PInt user_id)
  | BusinessList _ => False
  end.
Proof. repeat split. Qed.

(** ** Queries: the first row that passes a filter *)

Section first_row.
Context {A : Type} (P : A -> Prop) `{!forall x, Decision (P x)}.

Lemma head_filter_None (l : list A) :
  Forall (fun x => ~ P x) l -> head (filter P l) = None.
Proof.
  induction 1 as [|x l Hx _ IH]; [reflexivity|].
  rewrite filter_cons_False by assumption. exact IH.
Qed.

Lemma head_filter_Some (l : list A) (x : A) :
  head (filter P l) = Some x -> x ∈ l /\ P x.
Proof.
  intros Hh.
  assert (Hx : x ∈ filter P l).
  { destruct (filter P l); [discriminate|]. injection Hh as ->. left. }
  apply list_elem_of_filter in Hx. tauto.
Qed.

Lemma head_filter_is_Some (l : list A) (x : A) :
  x ∈ l -> P x -> exists y, head (filter P l) = Some y.
Proof.
  intros Hx HP.
  assert (Hf : x ∈ filter P l) by (apply list_elem_of_filter; tauto).
  destruct (filter P l) as [|y l']; [inversion Hf|]. exists y. reflexivity.
Qed.
End first_row.

(** With distinct keys, looking a row up by its key finds that row. *)
Lemma head_filter_key {A} (key : A -> Z) (l : list A) (x : A) :
  NoDup (map key l) -> x ∈ l ->
  head (filter (fun y => key y = key x) l) = Some x.
Proof.
  induction l as [|y l IH]; intros Hnd Hx; [inversion Hx|].
  cbn in Hnd. apply NoDup_cons in Hnd as [Hy Hnd].
  apply elem_of_cons in Hx as [->|Hx].
  - rewrite filter_cons_True by reflexivity. reflexivity.
  - rewrite filter_cons_False; [apply IH; assumption|].
    intros Heq. apply Hy. rewrite Heq.
    apply (list_elem_of_fmap_2 key). exact Hx.
Qed.

Lemma gtb_false_of_le (a b : Z) : a <= b -> (a >? b) = false.
Proof. intros H. rewrite Z.gtb_ltb. apply Z.ltb_ge. exact H. Qed.

Lemma gtb_true_of_lt (a b : Z) : b < a -> (a >? b) = true.
Proof. intros H. rewrite Z.gtb_ltb. apply Z.ltb_lt. exact H. Qed.

Lemma len_oversized_logo : len oversized_logo = 5 * 1024 * 1024 + 1.
Proof.
  unfold len, oversized_logo. rewrite length_replicate.
  apply Z2Nat.id. discriminate.
Qed.

(** ** The session: a commit is final *)

(** [db.rollback()] after [db.commit()] restores nothing. *)
Lemma rollback_after_commit (s : Session) :
  (db_commit;; db_rollback) s = db_commit s.
Proof. reflexivity. Qed.

(** ** What each handler computes *)

Ltac step :=
  unfold run, open_session, create_business, get_business, delete_business,
    get_all_businesses, get_my_businesses, bind, try_except, ret, raise,
    getitem, json_loads, query_user_by_email, query_business_by_name,
    query_business_by_id, get_working, db_commit, db_rollback, db_add_user,
    db_add_business, db_delete, Exception; cbn.

(** Membership in a list that is written out. *)
Ltac in_list :=
  cbn; first [ apply list_elem_of_here | apply list_elem_of_further; in_list ].

Ltac finish_steps bd logo :=
  unfold business_steps; cbn;
  destruct (bd !! "name") as [?n|]; cbn; [|reflexivity];
  destruct (head (filter _ _)) as [?b|]; cbn; [reflexivity|];
  destruct logo as [?l|]; cbn;
  [destruct (len _ >? _); cbn; [reflexivity|]|];
  (destruct (bd !! "mobile") as [?m|]; cbn; reflexivity).

Lemma create_business_run business_data user_data logo cu now d :
  run (create_business business_data user_data logo cu now) d =
  create_business_outcome business_data user_data logo cu now d.
Proof.
  unfold create_business_outcome. step.
  destruct business_data as [bd|]; cbn; [|reflexivity].
  destruct user_data as [ud|]; cbn; [|reflexivity].
  destruct (ud !! "email") as [e|]; cbn; [|reflexivity].
  destruct (head (filter _ (users d))) as [u0|]; cbn.
  - finish_steps bd logo.
  - destruct (ud !! "password") as [p|]; cbn; [|reflexivity].
    finish_steps bd logo.
Qed.

(** A public attribute of a row, as the serialiser sees it after the
    time stamps have been replaced. *)
Lemma public_attr_lookup b key v :
  vars b !! key = Some v -> startswith key "_" = false ->
  (handle_datetime <$>
     filter (fun kv => startswith (fst kv) "_" = false) (vars b)) !! key =
  Some (handle_datetime v).
Proof.
  intros Hv Hpub. rewrite lookup_fmap.
  rewrite (map_lookup_filter_Some_2 _ _ key v Hv Hpub). reflexivity.
Qed.

Lemma serialize_business_with_owner_run b owner_email s :
  serialize_business_with_owner b owner_email s =
  (Ok (serialized b owner_email), s).
Proof.
  unfold serialize_business_with_owner, serialized. cbn zeta.
  rewrite (public_attr_lookup b "logo_image"
             (match logo_image b with
              | Some l => PBytes l
              | None => PNone
              end) eq_refl eq_refl).
  destruct (logo_image b); reflexivity.
Qed.

Lemma comprehension_serialize rows s :
  comprehension
    (fun row => serialize_business_with_owner (fst row) (snd row)) rows s =
  (Ok (map (fun row => serialized (fst row) (snd row)) rows), s).
Proof.
  induction rows as [|row rows IH]; [reflexivity|].
  cbn [comprehension]. unfold bind at 1.
  rewrite serialize_business_with_owner_run.
  unfold bind at 1. rewrite IH. reflexivity.
Qed.

Lemma get_all_businesses_run skip limit d :
  run (get_all_businesses skip limit) d =
  (match all_rows skip limit d with
   | [] => Exc (HTTPException 404 (Lit "No businesses found"))
   | rows =>
       Ok (BusinessList (map (fun row => serialized (fst row) (snd row)) rows))
   end, d).
Proof.
  unfold run, get_all_businesses, all_rows, bind, get_working, open_session.
  cbn [working].
  destruct (take limit (drop skip (join_owner d))) as [|row rows] eqn:E;
    [reflexivity|].
  rewrite comprehension_serialize. reflexivity.
Qed.

Lemma get_my_businesses_run skip limit cu d :
  run (get_my_businesses skip limit cu) d =
  (match my_rows skip limit cu d with
   | [] =>
       Exc (HTTPException 404
              (Lit "No businesses found for the current user"))
   | rows =>
       Ok (BusinessList (map (fun row => serialized (fst row) (snd row)) rows))
   end, d).
Proof.
  unfold run, get_my_businesses, my_rows, bind, get_working, open_session.
  cbn [working].
  destruct (take limit (drop skip (filter _ (join_owner d))))
    as [|row rows] eqn:E; [reflexivity|].
  rewrite comprehension_serialize. reflexivity.
Qed.

Lemma get_business_missing i d :
  Forall (fun b => id b <> i) (businesses d) ->
  run (get_business i) d =
  (Exc (HTTPException 404 (Lit "Business not found")), d).
Proof.
  intros Hi. step. rewrite (head_filter_None _ _ Hi). reflexivity.
Qed.

Lemma get_business_found i d b :
  head (filter (fun b => id b = i) (businesses d)) = Some b ->
  exists resp,
    run (get_business i) d = (Ok (Dict resp), d) /\
    resp !! "id" = Some (PInt (id b)) /\
    resp !! "name" = Some (PStr (name b)) /\
    resp !! "mobile" = Some (PStr (mobile b)) /\
    resp !! "created_by" = Some (PInt (created_by b)) /\
    resp !! "updated_by" = Some (PInt (updated_by b)) /\
    resp !! "logo_image" =
      Some (match logo_image b with
            | Some (x :: l) => PStr (b64encode (x :: l))
            | Some [] | None => PNone
            end) /\
    resp !! "created_at" = Some (PStr (isoformat (created_at b))) /\
    resp !! "updated_at" = Some (PStr (isoformat (updated_at b))).
Proof.
  intros Hb. step. rewrite Hb. cbn.
  eexists. split; [reflexivity|].
  repeat split; reflexivity.
Qed.

Lemma delete_business_run i cu d :
  cu_role cu = "t_admin" ->
  run (delete_business i cu) d =
  match head (filter (fun b => id b = i) (businesses d)) with
  | None => (Exc (HTTPException 404 (Lit "Business not found")), d)
  | Some _ =>
      (Ok (Dict
             (<["message" := PStr "Business deleted successfully"]>
             (<["business_id" := PInt i]> ∅))),
       delete_row i d)
  end.
Proof.
  intros Hr. step.
  destruct (head (filter _ _)) as [b|] eqn:Hb; cbn; [|reflexivity].
  rewrite Hr. cbn.
  apply head_filter_Some in Hb as [_ ->]. reflexivity.
Qed.

Lemma delete_business_forbidden i cu d :
  cu_role cu <> "t_admin" ->
  run (delete_business i cu) d =
  match head (filter (fun b => id b = i) (businesses d)) with
  | None => (Exc (HTTPException 404 (Lit "Business not found")), d)
  | Some _ =>
      (Exc (HTTPException 403 (Lit "Not authorized to delete this business")),
       d)
  end.
Proof.
  intros Hr. step.
  destruct (head (filter _ _)) as [b|] eqn:Hb; cbn; [|reflexivity].
  destruct (String.eqb_spec (cu_role cu) "t_admin") as [Heq|_];
    [contradiction|reflexivity].
Qed.

(** ** Primary keys *)

Lemma db_wf_fresh_user d :
  db_wf d -> Forall (fun u => user_id u <> next_user_id d) (users d).
Proof.
  intros (Hu & _). eapply Forall_impl; [exact Hu|]. cbn. intros u Hlt. lia.
Qed.

Lemma db_wf_fresh_business d :
  db_wf d -> Forall (fun b => id b <> next_business_id d) (businesses d).
Proof.
  intros (_ & Hb & _). eapply Forall_impl; [exact Hb|]. cbn. intros b Hlt. lia.
Qed.

Lemma NoDup_snoc_fresh {A} (key : A -> Z) (l : list A) (x : A) :
  NoDup (map key l) -> Forall (fun y => key y <> key x) l ->
  NoDup (map key (l ++ [x])).
Proof.
  intros Hnd Hfresh. rewrite map_app. apply NoDup_app. split; [exact Hnd|].
  split; [|apply NoDup_singleton].
  intros k Hk Hk'. apply list_elem_of_singleton in Hk'. subst k.
  apply list_elem_of_fmap in Hk as (y & Hy & Hin).
  rewrite Forall_forall in Hfresh. apply (Hfresh y Hin). symmetry. exact Hy.
Qed.

Lemma NoDup_map_filter {A} (key : A -> Z) (P : A -> Prop)
    `{!forall x, Decision (P x)} (l : list A) :
  NoDup (map key l) -> NoDup (map key (filter P l)).
Proof.
  induction l as [|x l IH]; intros Hnd; [exact Hnd|].
  cbn in Hnd. apply NoDup_cons in Hnd as [Hx Hnd].
  rewrite filter_cons. destruct (decide (P x)); [|apply IH; exact Hnd].
  cbn. apply NoDup_cons. split; [|apply IH; exact Hnd].
  intros Hin. apply Hx.
  apply list_elem_of_fmap in Hin as (y & Hy & Hin).
  apply list_elem_of_filter in Hin as [_ Hin].
  rewrite Hy. apply (list_elem_of_fmap_2 key). exact Hin.
Qed.

Lemma db_wf_insert_user d u :
  db_wf d -> user_id u = next_user_id d -> db_wf (insert_user u d).
Proof.
  intros Hwf Hid. pose proof (db_wf_fresh_user d Hwf) as Hfresh.
  destruct Hwf as (Hu & Hb & Hnu & Hnb).
  unfold db_wf, insert_user; cbn. repeat split; [| exact Hb | | exact Hnb].
  - apply Forall_app. split.
    + eapply Forall_impl; [exact Hu|]. cbn. intros; lia.
    + apply Forall_singleton. lia.
  - apply NoDup_snoc_fresh; [exact Hnu|]. rewrite Hid. exact Hfresh.
Qed.

Lemma db_wf_insert_business d b :
  db_wf d -> id b = next_business_id d -> db_wf (insert_business b d).
Proof.
  intros Hwf Hid. pose proof (db_wf_fresh_business d Hwf) as Hfresh.
  destruct Hwf as (Hu & Hb & Hnu & Hnb).
  unfold db_wf, insert_business; cbn. repeat split; [exact Hu | | exact Hnu |].
  - apply Forall_app. split.
    + eapply Forall_impl; [exact Hb|]. cbn. intros; lia.
    + apply Forall_singleton. lia.
  - apply NoDup_snoc_fresh; [exact Hnb|]. rewrite Hid. exact Hfresh.
Qed.

Lemma db_wf_delete_row d i : db_wf d -> db_wf (delete_row i d).
Proof.
  intros (Hu & Hb & Hnu & Hnb).
  unfold db_wf, delete_row; cbn. repeat split; [exact Hu | | exact Hnu |].
  - apply Forall_forall. intros b Hin.
    apply list_elem_of_filter in Hin as [_ Hin].
    rewrite Forall_forall in Hb. exact (Hb b Hin).
  - apply NoDup_map_filter. exact Hnb.
Qed.

Lemma db_wf_business_steps bd logo cu now owner d :
  db_wf d -> db_wf (snd (business_steps bd logo cu now owner d)).
Proof.
  intros Hwf. unfold business_steps.
  destruct (bd !! "name") as [n|]; [|exact Hwf].
  destruct (head _); [exact Hwf|].
  destruct (match logo with Some l => _ | None => _ end); [exact Hwf|].
  destruct (bd !! "mobile") as [m|]; [|exact Hwf].
  apply db_wf_insert_business; [exact Hwf|reflexivity].
Qed.

(** Every handler leaves the primary keys in order. *)
Lemma db_wf_create_business business_data user_data logo cu now d :
  db_wf d ->
  db_wf (snd (run (create_business business_data user_data logo cu now) d)).
Proof.
  intros Hwf. rewrite create_business_run. unfold create_business_outcome.
  destruct business_data as [bd|]; [|destruct user_data; exact Hwf].
  destruct user_data as [ud|]; [|exact Hwf].
  destruct (ud !! "email") as [e|]; [|exact Hwf].
  destruct (head _) as [u0|].
  - apply db_wf_business_steps. exact Hwf.
  - destruct (ud !! "password") as [p|]; [|exact Hwf].
    apply db_wf_business_steps.
    apply db_wf_insert_user; [exact Hwf|reflexivity].
Qed.

Lemma db_wf_delete_business i cu d :
  db_wf d -> db_wf (snd (run (delete_business i cu) d)).
Proof.
  intros Hwf.
  destruct (decide (cu_role cu = "t_admin")) as [Hr|Hr].
  - rewrite (delete_business_run _ _ _ Hr).
    destruct (head _); [apply db_wf_delete_row|]; exact Hwf.
  - rewrite (delete_business_forbidden _ _ _ Hr).
    destruct (head _); exact Hwf.
Qed.

(** ** Registration *)





Lemma db_sample_wf : db_wf db_sample.
Proof. unfold db_wf. compute_done. Qed.


(** Steps 2 to 4 on an upload above the limit, for a name not yet taken. *)
Lemma business_steps_oversized bd l cu now owner d n :
  bd !! "name" = Some n ->
  Forall (fun b => name b <> n) (businesses d) ->
  5 * 1024 * 1024 < len l ->
  business_steps bd (Some l) cu now owner d =
  (Exc (HTTPException 400
          (Fmt "Error reading file: "
             (HTTPException 400 (Lit "File is too large")))), d).
Proof.
  intros Hn Hb Hl. unfold business_steps.
  rewrite Hn, (head_filter_None _ _ Hb), (gtb_true_of_lt _ _ Hl).
  reflexivity.
Qed.

(** A request that reaches step 3 with an upload above the limit. *)
Lemma create_business_oversized_run d bd ud l cu now e n :
  ud !! "email" = Some e -> bd !! "name" = Some n ->
  Forall (fun b => name b <> n) (businesses d) ->
  5 * 1024 * 1024 < len l ->
  run (create_business (Some bd) (Some ud) (Some l) cu now) d =
  let too_large :=
    Exc (HTTPException 400
           (Fmt "Error reading file: "
              (HTTPException 400 (Lit "File is too large")))) in
  match head (filter (fun u => email u = e) (users d)) with
  | Some _ => (too_large, d)
  | None =>
      match ud !! "password" with
      | None => (Exc (KeyError "password"), d)
      | Some p =>
          (too_large,
           insert_user
             (new_User e p "t_customer" (cu_id cu) (cu_id cu)
                (next_user_id d)) d)
      end
  end.
Proof.
  intros He Hn Hb Hl. cbn zeta.
  rewrite create_business_run. unfold create_business_outcome. rewrite He.
  destruct (head _) as [u0|].
  - apply business_steps_oversized with (n := n); assumption.
  - destruct (ud !! "password") as [p|]; [|reflexivity].
    apply business_steps_oversized with (n := n); assumption.
Qed.

(** C1, on the code.  On the fresh database, Carol's email is unseen, the
    name Cargo is free and the logo has 5 MiB and one byte: the answer is
    400, yet Carol's row is in the stored user table afterwards.  The
    [db.rollback()] of step 3 comes after the [db.commit()] of step 1 and
    undoes nothing. *)
Lemma oversized_logo_keeps_new_user :
  5 * 1024 * 1024 < len oversized_logo /\
  Forall (fun u => email u <> "carol@example.com") (users db_fresh) /\
  status_of
    (fst (run (create_business (Some cargo_form) (Some carol_form)
                 (Some oversized_logo) admin t0) db_fresh)) = 400 /\
  users
    (snd (run (create_business (Some cargo_form) (Some carol_form)
                 (Some oversized_logo) admin t0) db_fresh)) =
    [root_user;
     mk_User 2 "carol@example.com" "pass123" "t_customer" true false 1 1] /\
  users
    (snd (run (create_business (Some cargo_form) (Some carol_form)
                 (Some oversized_logo) admin t0) db_fresh)) <>
  users db_fresh.
Proof.
  assert (Hl : 5 * 1024 * 1024 < len oversized_logo)
    by (rewrite len_oversized_logo; lia).
  assert (Hu : Forall (fun u => email u <> "carol@example.com")
                 (users db_fresh))
    by (repeat constructor; discriminate).
  split; [exact Hl|]. split; [exact Hu|].
  rewrite (create_business_oversized_run db_fresh cargo_form carol_form
             oversized_logo admin t0 "carol@example.com" "Cargo"
             eq_refl eq_refl (Forall_nil_2 _) Hl).
  split; [reflexivity|]. split; [reflexivity|]. discriminate.
Qed.

(** What the handler does with an upload above the limit, for every
    request that reaches step 3: no business row is added.  If a stored
    user has the email, the answer is 400 and the stored state is
    unchanged.  If the email is unseen and a password is supplied, the
    answer is 400 and the stored state differs from the old one by
    exactly the user row that step 1 committed. *)
Theorem create_business_oversized_logo
    (d : Database) (bd ud : gmap string string) (l : list byte)
    (cu : CurrentUser) (now : datetime) (e n : string) :
  ud !! "email" = Some e -> bd !! "name" = Some n ->
  Forall (fun b => name b <> n) (businesses d) ->
  5 * 1024 * 1024 < len l ->
  businesses (snd (run (create_business (Some bd) (Some ud) (Some l) cu now) d))
    = businesses d /\
  (forall u0, head (filter (fun u => email u = e) (users d)) = Some u0 ->
     status_of
       (fst (run (create_business (Some bd) (Some ud) (Some l) cu now) d))
       = 400 /\
     snd (run (create_business (Some bd) (Some ud) (Some l) cu now) d) = d) /\
  (forall p, ud !! "password" = Some p ->
     Forall (fun u => email u <> e) (users d) ->
     status_of
       (fst (run (create_business (Some bd) (Some ud) (Some l) cu now) d))
       = 400 /\
     snd (run (create_business (Some bd) (Some ud) (Some l) cu now) d) =
       insert_user
         (new_User e p "t_customer" (cu_id cu) (cu_id cu) (next_user_id d))
         d).
Proof.
  intros He Hn Hb Hl.
  rewrite (create_business_oversized_run d bd ud l cu now e n He Hn Hb Hl).
  cbn zeta. split; [|split].
  - destruct (head _) as [u0|]; [reflexivity|].
    destruct (ud !! "password") as [p|]; reflexivity.
  - intros u0 ->. split; reflexivity.
  - intros p Hp Hu. rewrite (head_filter_None _ _ Hu), Hp. split; reflexivity.
Qed.

(** The same on the sample data, with the upload of 5 MiB and one byte:
    with Alice's known email the stored state stays as it was; with
    Carol's unseen email her row is what the request leaves behind. *)
Lemma create_business_oversized_logo_witness :
  (businesses
     (snd (run (create_business (Some cargo_form) (Some alice_form)
                  (Some oversized_logo) admin t0) db_sample)) =
   businesses db_sample /\
   status_of
     (fst (run (create_business (Some cargo_form) (Some alice_form)
                  (Some oversized_logo) admin t0) db_sample)) = 400 /\
   snd (run (create_business (Some cargo_form) (Some alice_form)
               (Some oversized_logo) admin t0) db_sample) = db_sample) /\
  (status_of
     (fst (run (create_business (Some cargo_form) (Some carol_form)
                  (Some oversized_logo) admin t0) db_fresh)) = 400 /\
   snd (run (create_business (Some cargo_form) (Some carol_form)
               (Some oversized_logo) admin t0) db_fresh) =
   insert_user
     (new_User "carol@example.com" "pass123" "t_customer" 1 1 2) db_fresh).
Proof.
  assert (Hl : 5 * 1024 * 1024 < len oversized_logo)
    by (rewrite len_oversized_logo; lia).
  assert (Hb : Forall (fun b => name b <> "Cargo") (businesses db_sample))
    by (repeat constructor; discriminate).
  assert (Hu : Forall (fun u => email u <> "carol@example.com")
                 (users db_fresh))
    by (repeat constructor; discriminate).
  pose proof (create_business_oversized_logo db_sample cargo_form alice_form
                oversized_logo admin t0 "alice@example.com" "Cargo"
                eq_refl eq_refl Hb Hl) as (Hbus & Hknown & _).
  pose proof (create_business_oversized_logo db_fresh cargo_form carol_form
                oversized_logo admin t0 "carol@example.com" "Cargo"
                eq_refl eq_refl (Forall_nil_2 _) Hl) as (_ & _ & Hunseen).
  split.
  - split; [exact Hbus | exact (Hknown alice eq_refl)].
  - exact (Hunseen "pass123" eq_refl Hu).
Defined.

(** ** A name that is taken *)

Lemma business_steps_duplicate bd logo cu now owner d n b0 :
  bd !! "name" = Some n ->
  head (filter (fun b => name b = n) (businesses d)) = Some b0 ->
  business_steps bd logo cu now owner d =
  (Exc (HTTPException 500
          (Fmt "Error checking business: "
             (HTTPException 400
                (Lit "Business with this name already exists")))), d).
Proof.
  intros Hn Hb. unfold business_steps. rewrite Hn, Hb. reflexivity.
Qed.

(** Whenever step 1 passes and the name is taken, the 400 raised in
    step 2 is caught by the [except Exception] around it and leaves the
    handler as a 500; the business table is not touched. *)
Lemma create_business_duplicate_name d bd ud logo cu now e p n b0 :
  ud !! "email" = Some e -> ud !! "password" = Some p ->
  bd !! "name" = Some n -> b0 ∈ businesses d -> name b0 = n ->
  status_of (fst (run (create_business (Some bd) (Some ud) logo cu now) d))
    = 500 /\
  businesses (snd (run (create_business (Some bd) (Some ud) logo cu now) d))
    = businesses d.
Proof.
  intros He Hp Hn Hin Hname.
  destruct (head_filter_is_Some (fun b => name b = n) _ _ Hin Hname)
    as [b1 Hb1].
  rewrite create_business_run. unfold create_business_outcome.
  rewrite He, Hp.
  destruct (head (filter _ (users d))) as [u0|].
  - rewrite (business_steps_duplicate _ _ _ _ _ _ n b1 Hn Hb1).
    split; reflexivity.
  - rewrite (business_steps_duplicate _ _ _ _ _ _ n b1 Hn); [|exact Hb1].
    split; reflexivity.
Qed.

(** C2, on the code.  Alice is registered and Acme exists; asking again
    for a business named Acme adds no row, but the answer is the 500 that
    wraps the intended 400, not a 400. *)
Theorem create_business_duplicate_name_is_500 :
  (exists b0, b0 ∈ businesses db_sample /\ name b0 = "Acme") /\
  run (create_business (Some acme_form) (Some alice_form) None admin t0)
    db_sample =
  (Exc (HTTPException 500
          (Fmt "Error checking business: "
             (HTTPException 400
                (Lit "Business with this name already exists")))),
   db_sample) /\
  status_of
    (fst (run (create_business (Some acme_form) (Some alice_form) None
                 admin t0) db_sample)) <> 400.
Proof.
  split.
  - exists acme. split; [|reflexivity]. unfold db_sample. in_list.
  - rewrite create_business_run. split; [reflexivity|].
    cbn. discriminate.
Qed.

(** ** The user row of step 1 *)

Lemma business_steps_users bd logo cu now owner d :
  users (snd (business_steps bd logo cu now owner d)) = users d.
Proof.
  unfold business_steps.
  destruct (bd !! "name") as [n|]; [|reflexivity].
  destruct (head _); [reflexivity|].
  destruct (match logo with Some l => _ | None => _ end); [reflexivity|].
  destruct (bd !! "mobile") as [m|]; reflexivity.
Qed.

(** The user table after a request: as before, or longer by the one row
    step 1 builds from the email and the password of the user form. *)
Lemma create_business_users business_data user_data logo cu now d :
  users (snd (run (create_business business_data user_data logo cu now) d))
    = users d \/
  exists ud e p,
    user_data = Some ud /\
    ud !! "email" = Some e /\ ud !! "password" = Some p /\
    Forall (fun u => email u <> e) (users d) /\
    users
      (snd (run (create_business business_data user_data logo cu now) d)) =
    (users d ++
       [new_User e p "t_customer" (cu_id cu) (cu_id cu) (next_user_id d)])%list.
Proof.
  rewrite create_business_run. unfold create_business_outcome.
  destruct business_data as [bd|]; [|left; destruct user_data; reflexivity].
  destruct user_data as [ud|]; [|left; reflexivity].
  destruct (ud !! "email") as [e|] eqn:He; [|left; reflexivity].
  destruct (head (filter _ (users d))) as [u0|] eqn:Hu.
  - left. apply business_steps_users.
  - destruct (ud !! "password") as [p|] eqn:Hp; [|left; reflexivity].
    right. exists ud, e, p. repeat split; try assumption.
    + apply Forall_forall. intros u Hin Hemail.
      destruct (head_filter_is_Some (fun u => email u = e) _ _ Hin Hemail)
        as [u1 Hu1].
      congruence.
    + rewrite business_steps_users. reflexivity.
Qed.

(** C6.  When the forms decode, the user form carries an email no stored
    user has and a password, the request appends one user row whose
    password is the supplied string itself, whatever the later steps
    answer.  Conversely, a row that is in the user table after a request
    and was not there before carries the password of the user form. *)
Theorem create_business_stores_password_verbatim :
  (forall d bd ud logo cu now e p,
     ud !! "email" = Some e -> ud !! "password" = Some p ->
     Forall (fun u => email u <> e) (users d) ->
     exists u,
       users (snd (run (create_business (Some bd) (Some ud) logo cu now) d))
         = (users d ++ [u])%list /\
       email u = e /\ password u = p) /\
  (forall d business_data user_data logo cu now u,
     u ∈ users
           (snd (run (create_business business_data user_data logo cu now) d))
     -> u ∉ users d ->
     exists ud,
       user_data = Some ud /\ ud !! "password" = Some (password u)).
Proof.
  split.
  - intros d bd ud logo cu now e p He Hp Hu.
    exists (new_User e p "t_customer" (cu_id cu) (cu_id cu) (next_user_id d)).
    split; [|split; reflexivity].
    rewrite create_business_run. unfold create_business_outcome.
    rewrite He, (head_filter_None _ _ Hu), Hp.
    rewrite business_steps_users. reflexivity.
  - intros d business_data user_data logo cu now u Hin Hnew.
    destruct (create_business_users business_data user_data logo cu now d)
      as [Hsame | (ud & e & p & -> & He & Hp & _ & Happ)].
    + rewrite Hsame in Hin. contradiction.
    + rewrite Happ in Hin. apply elem_of_app in Hin as [Hin|Hin];
        [contradiction|].
      apply list_elem_of_singleton in Hin. subst u.
      exists ud. split; [reflexivity | exact Hp].
Qed.

(** C6 on the sample data: Carol's row holds ["pass123"] as sent, even
    though the request fails later because the name Acme is taken. *)
Lemma create_business_stores_password_verbatim_witness :
  (exists u,
     users (snd (run (create_business (Some acme_form) (Some carol_form) None
                        admin t0) db_sample))
       = (users db_sample ++ [u])%list /\
     email u = "carol@example.com" /\ password u = "pass123") /\
  (exists ud,
     Some carol_form = Some ud /\
     ud !! "password" =
       Some (password
               (mk_User 2 "carol@example.com" "pass123" "t_customer"
                  true false 1 1))).
Proof.
  destruct create_business_stores_password_verbatim as [Hnew Honly].
  split.
  - apply Hnew.
    + reflexivity.
    + reflexivity.
    + repeat constructor; discriminate.
  - apply (Honly db_fresh (Some cargo_form) (Some carol_form) None admin t0).
    + rewrite create_business_run. in_list.
    + unfold db_fresh, root_user; cbn. intros Hin.
      apply list_elem_of_singleton in Hin. discriminate.
Defined.

(** C9.  A row that is in the user table after a request and was not there
    before has the role ["t_customer"]; and a ["role"] entry in the user
    form changes nothing: the request answers and stores the same with any
    role value put there. *)
Theorem create_business_role_is_customer :
  (forall d business_data user_data logo cu now u,
     u ∈ users
           (snd (run (create_business business_data user_data logo cu now) d))
     -> u ∉ users d -> role u = "t_customer") /\
  (forall d business_data (ud : gmap string string) logo cu now (r : string),
     run (create_business business_data (Some (<["role" := r]> ud)) logo
            cu now) d =
     run (create_business business_data (Some ud) logo cu now) d).
Proof.
  split.
  - intros d business_data user_data logo cu now u Hin Hnew.
    destruct (create_business_users business_data user_data logo cu now d)
      as [Hsame | (ud & e & p & _ & _ & _ & _ & Happ)].
    + rewrite Hsame in Hin. contradiction.
    + rewrite Happ in Hin. apply elem_of_app in Hin as [Hin|Hin];
        [contradiction|].
      apply list_elem_of_singleton in Hin. subst u. reflexivity.
  - intros d business_data ud logo cu now r.
    rewrite !create_business_run. unfold create_business_outcome.
    rewrite !lookup_insert_ne by discriminate. reflexivity.
Qed.

(** C9 on the sample data: Alice's form asks for the role ["t_admin"],
    the row created for her on the fresh database is a ["t_customer"]. *)
Lemma create_business_role_is_customer_witness :
  role (mk_User 2 "alice@example.com" "hunter2" "t_customer" true false 1 1)
    = "t_customer" /\
  run (create_business (Some cargo_form)
         (Some (<["role" := "t_admin"]> carol_form)) None admin t0) db_fresh =
  run (create_business (Some cargo_form) (Some carol_form) None admin t0)
    db_fresh.
Proof.
  destruct create_business_role_is_customer as [Hrole Hignored].
  split; [|apply Hignored].
  apply (Hrole db_fresh (Some cargo_form) (Some alice_form) None admin t0).
  - rewrite create_business_run. in_list.
  - unfold db_fresh, root_user; cbn. intros Hin.
    apply list_elem_of_singleton in Hin. discriminate.
Defined.

(** ** Fetching and deleting *)

(** C4.  Fetching an identifier no stored business has answers 404.  A
    delete by an administrator of an identifier some stored business has
    succeeds; and whenever a delete of [B] succeeds, the business table is
    the old one without the rows of identifier [B], users are untouched,
    and fetching [B] afterwards answers 404. *)
Theorem get_business_404_after_delete (d : Database) (B : Z) :
  (Forall (fun b => id b <> B) (businesses d) ->
   run (get_business B) d =
   (Exc (HTTPException 404 (Lit "Business not found")), d)) /\
  (forall cu b, cu_role cu = "t_admin" -> b ∈ businesses d -> id b = B ->
   exists c, run (delete_business B cu) d = (Ok c, delete_row B d)) /\
  (forall cu c d', run (delete_business B cu) d = (Ok c, d') ->
   businesses d' = filter (fun b => id b <> B) (businesses d) /\
   users d' = users d /\
   Forall (fun b => id b <> B) (businesses d') /\
   run (get_business B) d' =
   (Exc (HTTPException 404 (Lit "Business not found")), d')).
Proof.
  split; [apply get_business_missing|]. split.
  - intros cu b Hr Hin Hid.
    rewrite (delete_business_run _ _ _ Hr).
    destruct (head_filter_is_Some (fun b => id b = B) _ _ Hin Hid)
      as [b1 ->].
    eexists. reflexivity.
  - intros cu c d' Hrun.
    assert (Hd' : d' = delete_row B d).
    { destruct (decide (cu_role cu = "t_admin")) as [Hr|Hr].
      - rewrite (delete_business_run _ _ _ Hr) in Hrun.
        destruct (head _); [congruence|discriminate].
      - rewrite (delete_business_forbidden _ _ _ Hr) in Hrun.
        destruct (head _); discriminate. }
    subst d'.
    assert (Hgone : Forall (fun b => id b <> B) (businesses (delete_row B d))).
    { apply Forall_forall. intros b Hin.
      apply list_elem_of_filter in Hin as [Hne _]. exact Hne. }
    split; [reflexivity|]. split; [reflexivity|]. split; [exact Hgone|].
    apply get_business_missing. exact Hgone.
Qed.

(** C4 on the sample data: identifier 9 is unknown; the administrator
    deletes Bolt (identifier 2), after which fetching 2 answers 404. *)
Lemma get_business_404_after_delete_witness :
  run (get_business 9) db_sample =
    (Exc (HTTPException 404 (Lit "Business not found")), db_sample) /\
  (exists c, run (delete_business 2 admin) db_sample
             = (Ok c, delete_row 2 db_sample)) /\
  businesses (delete_row 2 db_sample) = [acme; blank] /\
  run (get_business 2) (delete_row 2 db_sample) =
    (Exc (HTTPException 404 (Lit "Business not found")),
     delete_row 2 db_sample).
Proof.
  destruct (get_business_404_after_delete db_sample 9) as (Hmissing & _).
  destruct (get_business_404_after_delete db_sample 2)
    as (_ & Hdelete & Hafter).
  split.
  - apply Hmissing. repeat constructor; discriminate.
  - destruct (Hdelete admin bolt) as [c Hc].
    + reflexivity.
    + unfold db_sample. in_list.
    + reflexivity.
    + destruct (Hafter admin c _ Hc) as (Hrows & _ & _ & Hfetch).
      split; [exists c; exact Hc|]. split; [|exact Hfetch].
      rewrite Hrows. reflexivity.
Defined.

(** C8.  For a caller whose role is ["t_admin"], as the dependency
    [role_required("t_admin")] establishes, [delete_business] never takes
    the branch that raises 403: it answers 404 when no business has the
    identifier and 200 otherwise. *)
Theorem delete_business_never_403 (d : Database) (B : Z) (cu : CurrentUser) :
  cu_role cu = "t_admin" ->
  status_of (fst (run (delete_business B cu) d)) <> 403 /\
  (forall detail,
     fst (run (delete_business B cu) d) <> Exc (HTTPException 403 detail)) /\
  (status_of (fst (run (delete_business B cu) d)) = 404 \/
   status_of (fst (run (delete_business B cu) d)) = 200).
Proof.
  intros Hr. rewrite (delete_business_run _ _ _ Hr).
  destruct (head _); cbn; repeat split; (discriminate || auto).
Qed.

Lemma delete_business_never_403_witness :
  status_of (fst (run (delete_business 1 admin) db_sample)) <> 403 /\
  (forall detail,
     fst (run (delete_business 1 admin) db_sample)
     <> Exc (HTTPException 403 detail)) /\
  (status_of (fst (run (delete_business 1 admin) db_sample)) = 404 \/
   status_of (fst (run (delete_business 1 admin) db_sample)) = 200).
Proof.
  apply (delete_business_never_403 db_sample 1 admin). reflexivity.
Defined.

(** ** The listings *)

Lemma serialized_public_attr b owner_email key v :
  key <> "owner_email" -> key <> "logo_image" ->
  vars b !! key = Some v -> startswith key "_" = false ->
  serialized b owner_email !! key = Some (handle_datetime v).
Proof.
  intros Hk1 Hk2 Hv Hpub. unfold serialized. cbn zeta.
  rewrite lookup_insert_ne by congruence.
  destruct (logo_image b).
  - rewrite lookup_insert_ne by congruence.
    apply public_attr_lookup; assumption.
  - apply public_attr_lookup; assumption.
Qed.

Lemma serialized_business_owner b owner_email :
  serialized b owner_email !! "business_owner"
  = Some (PInt (business_owner b)).
Proof.
  apply (serialized_public_attr b owner_email "business_owner"
           (PInt (business_owner b))); (discriminate || reflexivity).
Qed.

Lemma serialized_owner_email b owner_email :
  serialized b owner_email !! "owner_email" = Some (PStr owner_email).
Proof. unfold serialized. cbn zeta. apply lookup_insert_eq. Qed.

(** The serialiser encodes whatever bytes the column holds, also none. *)
Lemma serialized_logo_image b owner_email :
  serialized b owner_email !! "logo_image" =
  Some (match logo_image b with
        | Some l => PStr (b64encode l)
        | None => PNone
        end).
Proof.
  unfold serialized. cbn zeta. rewrite lookup_insert_ne by discriminate.
  destruct (logo_image b) as [l|] eqn:Hl.
  - apply lookup_insert_eq.
  - rewrite (public_attr_lookup b "logo_image" PNone); [reflexivity| |].
    + unfold vars. rewrite Hl. reflexivity.
    + reflexivity.
Qed.

(** The private attribute does not reach the response. *)
Lemma serialized_private b owner_email :
  serialized b owner_email !! "_sa_instance_state" = None.
Proof.
  unfold serialized. cbn zeta. rewrite lookup_insert_ne by discriminate.
  assert (Hnone :
    (handle_datetime <$>
       filter (fun kv => startswith (fst kv) "_" = false) (vars b))
      !! "_sa_instance_state" = None).
  { rewrite lookup_fmap.
    rewrite (map_lookup_filter_None_2 _ (vars b) "_sa_instance_state");
      [reflexivity|].
    right. intros v _ Hpub. discriminate Hpub. }
  destruct (logo_image b); [rewrite lookup_insert_ne by discriminate|];
    exact Hnone.
Qed.

Lemma my_rows_own skip limit cu d :
  Forall (fun row => business_owner (fst row) = cu_id cu)
    (my_rows skip limit cu d).
Proof.
  unfold my_rows. apply Forall_forall. intros row Hin.
  pose proof (elem_of_sublist _ _ _ Hin (sublist_take _ _)) as Hin1.
  pose proof (elem_of_sublist _ _ _ Hin1 (sublist_drop _ _)) as Hin2.
  apply list_elem_of_filter in Hin2 as [Hown _]. exact Hown.
Qed.

(** C5.  The listing of the caller's businesses answers with the rows of
    the owner join whose owner is the caller, after dropping [skip] of
    them and keeping at most [limit]; it answers with a list whenever that
    selection is not empty; and every entry of a list it answers with has
    the caller's identifier under ["business_owner"]. *)
Theorem get_my_businesses_only_own
    (skip limit : nat) (cu : CurrentUser) (d : Database) :
  my_rows skip limit cu d =
    take limit
      (drop skip
         (filter (fun row => business_owner (fst row) = cu_id cu)
            (join_owner d))) /\
  (my_rows skip limit cu d <> [] ->
   run (get_my_businesses skip limit cu) d =
   (Ok (BusinessList
          (map (fun row => serialized (fst row) (snd row))
             (my_rows skip limit cu d))), d)) /\
  (forall l,
     fst (run (get_my_businesses skip limit cu) d) = Ok (BusinessList l) ->
     l = map (fun row => serialized (fst row) (snd row))
           (my_rows skip limit cu d) /\
     (length l <= limit)%nat /\
     Forall (fun entry => entry !! "business_owner" = Some (PInt (cu_id cu)))
       l).
Proof.
  split; [reflexivity|].
  rewrite get_my_businesses_run.
  assert (Hentries :
    Forall (fun entry => entry !! "business_owner" = Some (PInt (cu_id cu)))
      (map (fun row => serialized (fst row) (snd row))
         (my_rows skip limit cu d))).
  { apply Forall_fmap. eapply Forall_impl; [apply my_rows_own|].
    intros row Hown. cbn. rewrite serialized_business_owner, Hown.
    reflexivity. }
  assert (Hlen :
    (length (map (fun row => serialized (fst row) (snd row))
               (my_rows skip limit cu d)) <= limit)%nat).
  { rewrite length_map. unfold my_rows. rewrite length_take. lia. }
  split.
  - intros Hne. destruct (my_rows skip limit cu d); [contradiction|].
    reflexivity.
  - intros l Hl. destruct (my_rows skip limit cu d) as [|row rows];
      [discriminate|].
    cbn [fst] in Hl. injection Hl as <-. auto.
Qed.

(** C5 on the sample data: Alice (identifier 2) sees Acme and Blank, not
    Bob's Bolt; with [skip = 1] and [limit = 1] she sees Blank alone. *)
Lemma get_my_businesses_only_own_witness :
  map fst (my_rows 0 10 (mk_CurrentUser 2 "t_customer") db_sample)
    = [acme; blank] /\
  map fst (my_rows 1 1 (mk_CurrentUser 2 "t_customer") db_sample)
    = [blank] /\
  (exists l,
     run (get_my_businesses 0 10 (mk_CurrentUser 2 "t_customer")) db_sample
       = (Ok (BusinessList l), db_sample) /\
     (length l <= 10)%nat /\
     Forall (fun entry => entry !! "business_owner" = Some (PInt 2)) l).
Proof.
  destruct (get_my_businesses_only_own 0 10 (mk_CurrentUser 2 "t_customer")
              db_sample) as (_ & Hrun & Hown).
  split; [reflexivity|]. split; [reflexivity|].
  assert (Hne : my_rows 0 10 (mk_CurrentUser 2 "t_customer") db_sample <> [])
    by discriminate.
  specialize (Hrun Hne).
  eexists. split; [exact Hrun|].
  apply Hown. rewrite Hrun. reflexivity.
Defined.

(** C10.  Each listing answers 404 exactly when its selection of rows for
    the given [skip], [limit] (and owner) is empty, and answers 200 with a
    list otherwise; neither ever answers with an empty list. *)
Theorem listings_404_when_empty
    (skip limit : nat) (cu : CurrentUser) (d : Database) :
  (all_rows skip limit d = [] ->
   run (get_all_businesses skip limit) d =
   (Exc (HTTPException 404 (Lit "No businesses found")), d)) /\
  (my_rows skip limit cu d = [] ->
   run (get_my_businesses skip limit cu) d =
   (Exc (HTTPException 404
           (Lit "No businesses found for the current user")), d)) /\
  (all_rows skip limit d <> [] ->
   status_of (fst (run (get_all_businesses skip limit) d)) = 200) /\
  (my_rows skip limit cu d <> [] ->
   status_of (fst (run (get_my_businesses skip limit cu) d)) = 200) /\
  fst (run (get_all_businesses skip limit) d) <> Ok (BusinessList []) /\
  fst (run (get_my_businesses skip limit cu) d) <> Ok (BusinessList []).
Proof.
  rewrite get_all_businesses_run, get_my_businesses_run.
  repeat split.
  - intros ->. reflexivity.
  - intros ->. reflexivity.
  - intros Hne. destruct (all_rows skip limit d); [contradiction|reflexivity].
  - intros Hne. destruct (my_rows skip limit cu d);
      [contradiction|reflexivity].
  - destruct (all_rows skip limit d); discriminate.
  - destruct (my_rows skip limit cu d); discriminate.
Qed.

(** C10 on the sample data: three businesses are stored, so skipping
    three leaves the listing of all with nothing and it answers 404; the
    administrator owns none, so the listing of his own answers 404 too. *)
Lemma listings_404_when_empty_witness :
  run (get_all_businesses 3 100) db_sample =
    (Exc (HTTPException 404 (Lit "No businesses found")), db_sample) /\
  run (get_my_businesses 0 100 admin) db_sample =
    (Exc (HTTPException 404
            (Lit "No businesses found for the current user")), db_sample).
Proof.
  destruct (listings_404_when_empty 3 100 admin db_sample)
    as (Hall & _).
  destruct (listings_404_when_empty 0 100 admin db_sample)
    as (_ & Hmy & _).
  split; [apply Hall | apply Hmy]; reflexivity.
Defined.

(** ** The logo of a fetched business *)

(** An upload of zero bytes passes step 3 and is stored as it is: the
    logo column of the new row holds the empty byte string, not nothing. *)
Lemma empty_upload_is_stored :
  run (create_business (Some cargo_form) (Some alice_form) (Some [])
         admin t0) db_sample =
  (Ok (created 4 2),
   mk_Database [root_user; alice; bob]
     [acme; bolt; blank;
      mk_Business 4 "Cargo" "9555555555" (Some []) 2 1 1 t0 t0 true false]
     4 5).
Proof. rewrite create_business_run. reflexivity. Qed.

(** C7 as stated fails.  Blank is stored with a logo of zero bytes; the
    fetch by identifier answers [None] for it, not the base64 text of
    those bytes (the empty string), which is what the listing gives. *)
Lemma get_business_empty_logo_is_none :
  blank ∈ businesses db_sample /\
  logo_image blank = Some [] /\
  (exists resp,
     run (get_business (id blank)) db_sample = (Ok (Dict resp), db_sample) /\
     resp !! "logo_image" = Some PNone /\
     resp !! "logo_image" <> Some (PStr (b64encode []))) /\
  serialized blank "alice@example.com" !! "logo_image"
    = Some (PStr (b64encode [])).
Proof.
  split; [unfold db_sample; in_list|]. split; [reflexivity|]. split.
  - destruct (get_business_found (id blank) db_sample blank eq_refl)
      as (resp & Hrun & _ & _ & _ & _ & _ & Hlogo & _).
    exists resp. split; [exact Hrun|]. rewrite Hlogo.
    split; [reflexivity|discriminate].
  - apply serialized_logo_image.
Qed.

(** C7, amended.  Fetching a stored business by its identifier answers
    200 with its identifier, name, mobile number and audit fields; under
    ["logo_image"] the base64 text of the stored logo when the logo has at
    least one byte, and [None] when no logo is stored or the stored logo
    has zero bytes; under ["created_at"] and ["updated_at"] the ISO-8601
    text of the two time stamps. *)
Theorem get_business_fields (d : Database) (b : Business) :
  db_wf d -> b ∈ businesses d ->
  exists resp,
    run (get_business (id b)) d = (Ok (Dict resp), d) /\
    resp !! "id" = Some (PInt (id b)) /\
    resp !! "name" = Some (PStr (name b)) /\
    resp !! "mobile" = Some (PStr (mobile b)) /\
    resp !! "created_by" = Some (PInt (created_by b)) /\
    resp !! "updated_by" = Some (PInt (updated_by b)) /\
    (forall l, logo_image b = Some l -> l <> [] ->
       resp !! "logo_image" = Some (PStr (b64encode l))) /\
    (logo_image b = None \/ logo_image b = Some [] ->
       resp !! "logo_image" = Some PNone) /\
    resp !! "created_at" = Some (PStr (isoformat (created_at b))) /\
    resp !! "updated_at" = Some (PStr (isoformat (updated_at b))).
Proof.
  intros (_ & _ & _ & Hnd) Hin.
  destruct (get_business_found (id b) d b (head_filter_key id _ _ Hnd Hin))
    as (resp & Hrun & Hid & Hname & Hmobile & Hcb & Hub & Hlogo & Hca & Hua).
  exists resp. repeat split; try assumption.
  - intros l Hl Hne. rewrite Hlogo, Hl. destruct l; [contradiction|].
    reflexivity.
  - intros [Hl|Hl]; rewrite Hlogo, Hl; reflexivity.
Qed.

(** C7, amended, on the sample data: Acme's two-byte logo ["Ma"] comes
    back as ["TWE="], and its time stamps as ["2024-01-02T03:04:05"]. *)
Lemma get_business_fields_witness :
  exists resp,
    run (get_business 1) db_sample = (Ok (Dict resp), db_sample) /\
    resp !! "name" = Some (PStr "Acme") /\
    resp !! "logo_image" = Some (PStr "TWE=") /\
    resp !! "created_at" = Some (PStr "2024-01-02T03:04:05") /\
    resp !! "updated_at" = Some (PStr "2024-01-02T03:04:05").
Proof.
  assert (Hin : acme ∈ businesses db_sample) by (unfold db_sample; in_list).
  destruct (get_business_fields db_sample acme db_sample_wf Hin)
    as (resp & Hrun & _ & Hname & _ & _ & _ & Hlogo & _ & Hca & Hua).
  exists resp. split; [exact Hrun|]. split; [exact Hname|].
  split; [|split; [exact Hca | exact Hua]].
  apply (Hlogo ["M"%byte; "a"%byte]); [reflexivity|discriminate].
Defined.

(** * Further properties of the handlers *)

(** ** The session at the end of a request *)

Ltac finish_session bd logo :=
  unfold business_steps; cbn;
  destruct (bd !! "name") as [?n|]; cbn; [|reflexivity];
  destruct (head (filter _ _)) as [?b|]; cbn; [reflexivity|];
  destruct logo as [?l|]; cbn;
  [destruct (len _ >? _); cbn; [reflexivity|]|];
  (destruct (bd !! "mobile") as [?m|]; cbn; reflexivity).

(** [create_business] on the session itself: when the handler ends, the
    session's view and the committed state are the same. *)
Lemma create_business_session business_data user_data logo cu now d :
  create_business business_data user_data logo cu now (open_session d) =
  (fst (create_business_outcome business_data user_data logo cu now d),
   open_session
     (snd (create_business_outcome business_data user_data logo cu now d))).
Proof.
  unfold create_business_outcome. step.
  destruct business_data as [bd|]; cbn; [|reflexivity].
  destruct user_data as [ud|]; cbn; [|reflexivity].
  destruct (ud !! "email") as [e|]; cbn; [|reflexivity].
  destruct (head (filter _ (users d))) as [u0|]; cbn.
  - finish_session bd logo.
  - destruct (ud !! "password") as [p|]; cbn; [|reflexivity].
    finish_session bd logo.
Qed.

Lemma delete_business_session i cu d :
  delete_business i cu (open_session d) =
  (fst (run (delete_business i cu) d),
   open_session (snd (run (delete_business i cu) d))).
Proof.
  step. destruct (head (filter _ _)) as [b|]; cbn; [|reflexivity].
  destruct (negb _); reflexivity.
Qed.

(** X1.  No request ends with rows that are added or deleted in the
    session but not committed: after [create_business] and after
    [delete_business], whatever they answer, the session's view is the
    committed state. *)
Theorem no_request_leaves_pending_rows :
  (forall business_data user_data logo cu now d,
     working
       (snd (create_business business_data user_data logo cu now
               (open_session d))) =
     committed
       (snd (create_business business_data user_data logo cu now
               (open_session d)))) /\
  (forall i cu d,
     working (snd (delete_business i cu (open_session d))) =
     committed (snd (delete_business i cu (open_session d)))).
Proof.
  split.
  - intros. rewrite create_business_session. reflexivity.
  - intros. rewrite delete_business_session. reflexivity.
Qed.

(** ** Requests that [create_business] turns down *)

(** X2.  When either form field is not JSON, the answer is the 400 of the
    first [try] and the stored state is unchanged: the handler does not
    reach step 1. *)
Theorem create_business_malformed_json
    (business_data user_data : option (gmap string string))
    (logo : option (list byte)) (cu : CurrentUser) (now : datetime)
    (d : Database) :
  business_data = None \/ user_data = None ->
  run (create_business business_data user_data logo cu now) d =
  (Exc (HTTPException 400 (Fmt "Invalid JSON data: " JSONDecodeError)), d).
Proof.
  intros Hbad. rewrite create_business_run. unfold create_business_outcome.
  destruct Hbad as [-> | ->]; [reflexivity|].
  destruct business_data; reflexivity.
Qed.

Lemma create_business_malformed_json_witness :
  run (create_business (Some acme_form) None None admin t0) db_sample =
  (Exc (HTTPException 400 (Fmt "Invalid JSON data: " JSONDecodeError)),
   db_sample).
Proof.
  apply (create_business_malformed_json (Some acme_form) None None admin t0
           db_sample).
  right. reflexivity.
Defined.

(** X3.  A user form without ["email"], or without ["password"] when the
    email is unseen, is not answered with a 400: the [KeyError] is not a
    [SQLAlchemyError], so it leaves step 1 and the handler uncaught, which
    the framework answers with 500.  Nothing is stored. *)
Theorem create_business_missing_user_field
    (bd ud : gmap string string) (logo : option (list byte))
    (cu : CurrentUser) (now : datetime) (d : Database) :
  (ud !! "email" = None ->
   run (create_business (Some bd) (Some ud) logo cu now) d =
   (Exc (KeyError "email"), d)) /\
  (forall e, ud !! "email" = Some e -> ud !! "password" = None ->
   Forall (fun u => email u <> e) (users d) ->
   run (create_business (Some bd) (Some ud) logo cu now) d =
   (Exc (KeyError "password"), d)) /\
  (ud !! "email" = None \/
   (exists e, ud !! "email" = Some e /\ ud !! "password" = None /\
              Forall (fun u => email u <> e) (users d)) ->
   status_of (fst (run (create_business (Some bd) (Some ud) logo cu now) d))
   = 500).
Proof.
  rewrite create_business_run. unfold create_business_outcome.
  split; [|split].
  - intros ->. reflexivity.
  - intros e -> Hp Hu. rewrite (head_filter_None _ _ Hu), Hp. reflexivity.
  - intros [-> | (e & -> & Hp & Hu)]; [reflexivity|].
    rewrite (head_filter_None _ _ Hu), Hp. reflexivity.
Qed.

Lemma create_business_missing_user_field_witness :
  run (create_business (Some cargo_form) (Some cargo_form) None admin t0)
    db_sample = (Exc (KeyError "email"), db_sample) /\
  run (create_business (Some cargo_form)
         (Some (<["email" := "dave@example.com"]> ∅)) None admin t0)
    db_sample = (Exc (KeyError "password"), db_sample).
Proof.
  split.
  - apply (create_business_missing_user_field cargo_form cargo_form None
             admin t0 db_sample).
    reflexivity.
  - apply (create_business_missing_user_field cargo_form
             (<["email" := "dave@example.com"]> ∅) None admin t0 db_sample)
      with (e := "dave@example.com").
    + reflexivity.
    + reflexivity.
    + repeat constructor; discriminate.
Defined.

Lemma head_filter_None_inv {A} (P : A -> Prop) `{!forall x, Decision (P x)}
    (l : list A) :
  head (filter P l) = None -> Forall (fun x => ~ P x) l.
Proof.
  intros Hnone. apply Forall_forall. intros x Hin HP.
  destruct (head_filter_is_Some P l x Hin HP) as [y Hy]. congruence.
Qed.

(** Steps 2 to 4 either accept, under the conditions the checks impose,
    or raise a 400 or a 500 and leave the stored state alone. *)
Lemma business_steps_cases bd logo cu now owner d :
  (exists n m,
     bd !! "name" = Some n /\ bd !! "mobile" = Some m /\
     Forall (fun b => name b <> n) (businesses d) /\ in_limit logo /\
     business_steps bd logo cu now owner d =
     (Ok (created (next_business_id d) owner),
      insert_business
        (new_Business n m logo owner (cu_id cu) (cu_id cu) now
           (next_business_id d)) d)) \/
  (exists e,
     business_steps bd logo cu now owner d = (Exc e, d) /\
     (status_of (@Exc content e) = 400 \/ status_of (@Exc content e) = 500)).
Proof.
  unfold business_steps.
  destruct (bd !! "name") as [n|]; [|right; eexists; split; eauto].
  destruct (head _) eqn:Hb; [right; eexists; split; eauto|].
  apply head_filter_None_inv in Hb.
  destruct logo as [l|].
  - destruct (len l >? 5 * 1024 * 1024) eqn:Hl;
      [right; eexists; split; eauto|].
    destruct (bd !! "mobile") as [m|]; [|right; eexists; split; eauto].
    left. exists n, m. repeat split; try assumption.
    cbn. rewrite Z.gtb_ltb in Hl. apply Z.ltb_ge in Hl. exact Hl.
  - destruct (bd !! "mobile") as [m|]; [|right; eexists; split; eauto].
    left. exists n, m. repeat split; assumption.
Qed.

(** What a request can do to the stored state and what it then answers:
    either it succeeds and appends one business whose owner is a stored
    user with the email of the form, or it fails with 400 or 500 and the
    business table is as before. *)
Lemma create_business_cases business_data user_data logo cu now d :
  (exists bd ud e n m u,
     business_data = Some bd /\ user_data = Some ud /\
     ud !! "email" = Some e /\
     bd !! "name" = Some n /\ bd !! "mobile" = Some m /\
     Forall (fun b => name b <> n) (businesses d) /\ in_limit logo /\
     u ∈ users
           (snd (run (create_business business_data user_data logo cu now) d))
     /\ email u = e /\
     fst (run (create_business business_data user_data logo cu now) d) =
       Ok (created (next_business_id d) (user_id u)) /\
     businesses
       (snd (run (create_business business_data user_data logo cu now) d)) =
     (businesses d ++
        [new_Business n m logo (user_id u) (cu_id cu) (cu_id cu) now
           (next_business_id d)])%list) \/
  ((status_of
      (fst (run (create_business business_data user_data logo cu now) d))
    = 400 \/
    status_of
      (fst (run (create_business business_data user_data logo cu now) d))
    = 500) /\
   businesses
     (snd (run (create_business business_data user_data logo cu now) d)) =
   businesses d).
Proof.
  rewrite create_business_run. unfold create_business_outcome.
  destruct business_data as [bd|]; [|right; destruct user_data; cbn; auto].
  destruct user_data as [ud|]; [|right; cbn; auto].
  destruct (ud !! "email") as [e|] eqn:He; [|right; cbn; auto].
  destruct (head (filter _ (users d))) as [u0|] eqn:Hu.
  - destruct (head_filter_Some _ _ _ Hu) as [Hin He0].
    destruct (business_steps_cases bd logo cu now (user_id u0) d)
      as [(n & m & Hn & Hm & Hb & Hl & ->) | (e' & -> & Hst)].
    + left. exists bd, ud, e, n, m, u0. repeat split; assumption.
    + right. cbn [fst snd]. split; [exact Hst | reflexivity].
  - destruct (ud !! "password") as [p|]; [|right; cbn; auto].
    destruct (business_steps_cases bd logo cu now (next_user_id d)
                (insert_user
                   (new_User e p "t_customer" (cu_id cu) (cu_id cu)
                      (next_user_id d)) d))
      as [(n & m & Hn & Hm & Hb & Hl & ->) | (e' & -> & Hst)].
    + left.
      exists bd, ud, e, n, m,
        (new_User e p "t_customer" (cu_id cu) (cu_id cu) (next_user_id d)).
      repeat split; try assumption.
      cbn. apply elem_of_app. right. apply list_elem_of_here.
    + right. cbn [fst snd]. split; [exact Hst | reflexivity].
Qed.

(** X4.  A business form without ["name"] or without ["mobile"] is
    answered with 500, not 400: the [except Exception] of step 2 or of
    step 4 wraps the [KeyError].  No business row is added; the user row
    that step 1 committed for an unseen email stays. *)
Theorem create_business_missing_business_field
    (bd ud : gmap string string) (logo : option (list byte))
    (cu : CurrentUser) (now : datetime) (d : Database) (e p : string) :
  ud !! "email" = Some e -> ud !! "password" = Some p ->
  Forall (fun u => email u <> e) (users d) ->
  (bd !! "name" = None ->
   run (create_business (Some bd) (Some ud) logo cu now) d =
   (Exc (HTTPException 500
           (Fmt "Error checking business: " (KeyError "name"))),
    insert_user
      (new_User e p "t_customer" (cu_id cu) (cu_id cu) (next_user_id d)) d))
  /\
  (forall n, bd !! "name" = Some n ->
   Forall (fun b => name b <> n) (businesses d) -> in_limit logo ->
   bd !! "mobile" = None ->
   run (create_business (Some bd) (Some ud) logo cu now) d =
   (Exc (HTTPException 500
           (Fmt "Error creating business: " (KeyError "mobile"))),
    insert_user
      (new_User e p "t_customer" (cu_id cu) (cu_id cu) (next_user_id d)) d)).
Proof.
  intros He Hp Hu.
  rewrite create_business_run. unfold create_business_outcome.
  rewrite He, (head_filter_None _ _ Hu), Hp. unfold business_steps. split.
  - intros ->. reflexivity.
  - intros n -> Hb Hl Hm. cbn [businesses insert_user].
    rewrite (head_filter_None _ _ Hb), Hm.
    destruct logo as [l|]; [|reflexivity].
    cbn in Hl. rewrite (gtb_false_of_le _ _ Hl). reflexivity.
Qed.

Lemma create_business_missing_business_field_witness :
  run (create_business (Some carol_form) (Some carol_form) None admin t0)
    db_fresh =
  (Exc (HTTPException 500
          (Fmt "Error checking business: " (KeyError "name"))),
   mk_Database
     [root_user;
      mk_User 2 "carol@example.com" "pass123" "t_customer" true false 1 1]
     [] 3 1) /\
  run (create_business (Some (<["name" := "Cargo"]> ∅)) (Some carol_form)
         None admin t0) db_fresh =
  (Exc (HTTPException 500
          (Fmt "Error creating business: " (KeyError "mobile"))),
   mk_Database
     [root_user;
      mk_User 2 "carol@example.com" "pass123" "t_customer" true false 1 1]
     [] 3 1).
Proof.
  assert (Hu : Forall (fun u => email u <> "carol@example.com")
                 (users db_fresh))
    by (repeat constructor; discriminate).
  split.
  - apply (create_business_missing_business_field carol_form carol_form None
             admin t0 db_fresh "carol@example.com" "pass123"
             eq_refl eq_refl Hu).
    reflexivity.
  - apply (create_business_missing_business_field (<["name" := "Cargo"]> ∅)
             carol_form None admin t0 db_fresh "carol@example.com" "pass123"
             eq_refl eq_refl Hu) with (n := "Cargo").
    + reflexivity.
    + constructor.
    + exact I.
    + reflexivity.
Defined.

(** X5.  [create_business] only ever appends: the old user table and the
    old business table are prefixes of the new ones, and each grows by at
    most one row. *)
Theorem create_business_append_only
    (business_data user_data : option (gmap string string))
    (logo : option (list byte)) (cu : CurrentUser) (now : datetime)
    (d : Database) :
  users d `prefix_of`
    users (snd (run (create_business business_data user_data logo cu now) d))
  /\
  businesses d `prefix_of`
    businesses
      (snd (run (create_business business_data user_data logo cu now) d)) /\
  (length
     (users
        (snd (run (create_business business_data user_data logo cu now) d)))
   <= length (users d) + 1)%nat /\
  (length
     (businesses
        (snd (run (create_business business_data user_data logo cu now) d)))
   <= length (businesses d) + 1)%nat.
Proof.
  destruct (create_business_users business_data user_data logo cu now d)
    as [-> | (ud & e & p & _ & _ & _ & _ & ->)];
  destruct (create_business_cases business_data user_data logo cu now d)
    as [(bd' & ud' & e' & n & m & u & _ & _ & _ & _ & _ & _ & _ & _ & _ & _
         & ->) | (_ & ->)];
  rewrite ?length_app; cbn [length];
  repeat split; try (apply prefix_app_r; reflexivity); try reflexivity; lia.
Qed.

(** X6.  The answer is 200 exactly when a business row is added.  A request
    either answers 200 and appends one business, under the next
    identifier, or answers 400 or 500 and leaves the business table as it
    was; it never answers any other status. *)
Theorem create_business_200_iff_business_added
    (business_data user_data : option (gmap string string))
    (logo : option (list byte)) (cu : CurrentUser) (now : datetime)
    (d : Database) :
  (status_of
     (fst (run (create_business business_data user_data logo cu now) d))
   = 200 /\
   exists b,
     id b = next_business_id d /\
     businesses
       (snd (run (create_business business_data user_data logo cu now) d)) =
     (businesses d ++ [b])%list) \/
  ((status_of
      (fst (run (create_business business_data user_data logo cu now) d))
    = 400 \/
    status_of
      (fst (run (create_business business_data user_data logo cu now) d))
    = 500) /\
   businesses
     (snd (run (create_business business_data user_data logo cu now) d)) =
   businesses d).
Proof.
  destruct (create_business_cases business_data user_data logo cu now d)
    as [(bd & ud & e & n & m & u & _ & _ & _ & _ & _ & _ & _ & _ & _ & Hok
         & Hb) | Hfail].
  - left. rewrite Hok. split; [reflexivity|].
    eexists. split; [|exact Hb]. reflexivity.
  - right. exact Hfail.
Qed.

(** ** Invariants of the stored state *)

Lemma NoDup_snoc_key {A K} (key : A -> K) (l : list A) (x : A) :
  NoDup (map key l) -> Forall (fun y => key y <> key x) l ->
  NoDup (map key (l ++ [x])).
Proof.
  intros Hnd Hfresh. rewrite map_app. apply NoDup_app. split; [exact Hnd|].
  split; [|apply NoDup_singleton].
  intros k Hk Hk'. apply list_elem_of_singleton in Hk'. subst k.
  apply list_elem_of_fmap in Hk as (y & Hy & Hin).
  rewrite Forall_forall in Hfresh. apply (Hfresh y Hin). symmetry. exact Hy.
Qed.

(** X7.  Business names stay pairwise distinct: if no two stored
    businesses share a name before a [create_business] request, none do
    after it, whatever the request. *)
Theorem create_business_keeps_names_distinct
    (business_data user_data : option (gmap string string))
    (logo : option (list byte)) (cu : CurrentUser) (now : datetime)
    (d : Database) :
  NoDup (map name (businesses d)) ->
  NoDup
    (map name
       (businesses
          (snd (run (create_business business_data user_data logo cu now)
                  d)))).
Proof.
  intros Hnd.
  destruct (create_business_cases business_data user_data logo cu now d)
    as [(bd & ud & e & n & m & u & _ & _ & _ & _ & _ & Hb & _ & _ & _ & _
         & ->) | (_ & ->)]; [|exact Hnd].
  apply NoDup_snoc_key; [exact Hnd|]. exact Hb.
Qed.

Lemma create_business_keeps_names_distinct_witness :
  NoDup
    (map name
       (businesses
          (snd (run (create_business (Some acme_form) (Some carol_form) None
                       admin t0) db_sample)))) /\
  NoDup
    (map name
       (businesses
          (snd (run (create_business (Some cargo_form) (Some carol_form)
                       None admin t0) db_sample)))).
Proof.
  assert (Hnd : NoDup (map name (businesses db_sample))) by compute_done.
  split; apply create_business_keeps_names_distinct; exact Hnd.
Defined.

(** X8.  Emails stay pairwise distinct: if no two stored users share an
    email before a [create_business] request, none do after it. *)
Theorem create_business_keeps_emails_distinct
    (business_data user_data : option (gmap string string))
    (logo : option (list byte)) (cu : CurrentUser) (now : datetime)
    (d : Database) :
  NoDup (map email (users d)) ->
  NoDup
    (map email
       (users
          (snd (run (create_business business_data user_data logo cu now)
                  d)))).
Proof.
  intros Hnd.
  destruct (create_business_users business_data user_data logo cu now d)
    as [-> | (ud & e & p & _ & _ & _ & Hu & ->)]; [exact Hnd|].
  apply NoDup_snoc_key; [exact Hnd|]. exact Hu.
Qed.

Lemma create_business_keeps_emails_distinct_witness :
  NoDup
    (map email
       (users
          (snd (run (create_business (Some cargo_form) (Some carol_form) None
                       admin t0) db_sample)))) /\
  NoDup
    (map email
       (users
          (snd (run (create_business (Some cargo_form) (Some alice_form) None
                       admin t0) db_sample)))).
Proof.
  assert (Hnd : NoDup (map email (users db_sample))) by compute_done.
  split; apply create_business_keeps_emails_distinct; exact Hnd.
Defined.

(** X9.  Primary keys stay in order under the two handlers that write:
    after [create_business] and after [delete_business], identifiers are
    still pairwise distinct and below the counters.  The three handlers
    that read leave the stored state as it is, whatever they answer. *)
Theorem handlers_keep_primary_keys (d : Database) :
  (db_wf d ->
   (forall business_data user_data logo cu now,
      db_wf
        (snd (run (create_business business_data user_data logo cu now) d)))
   /\
   (forall i cu, db_wf (snd (run (delete_business i cu) d)))) /\
  (forall i, snd (run (get_business i) d) = d) /\
  (forall skip limit, snd (run (get_all_businesses skip limit) d) = d) /\
  (forall skip limit cu, snd (run (get_my_businesses skip limit cu) d) = d).
Proof.
  split; [|split; [|split]].
  - intros Hwf. split.
    + intros. apply db_wf_create_business. exact Hwf.
    + intros. apply db_wf_delete_business. exact Hwf.
  - intros i. step. destruct (head _); reflexivity.
  - intros. rewrite get_all_businesses_run. reflexivity.
  - intros. rewrite get_my_businesses_run. reflexivity.
Qed.

Lemma handlers_keep_primary_keys_witness :
  db_wf
    (snd (run (create_business (Some cargo_form) (Some carol_form) None
                 admin t0) db_sample)) /\
  db_wf (snd (run (delete_business 2 admin) db_sample)).
Proof.
  destruct (handlers_keep_primary_keys db_sample) as [Hwrite _].
  destruct (Hwrite db_sample_wf) as [Hcreate Hdelete].
  split; [apply Hcreate | apply Hdelete].
Defined.

Lemma join_owner_elem (d : Database) (b : Business) (e : string) :
  (b, e) ∈ join_owner d <->
  b ∈ businesses d /\
  exists u, u ∈ users d /\ business_owner b = user_id u /\ email u = e.
Proof.
  unfold join_owner. rewrite list_elem_of_In, in_flat_map. split.
  - intros (b0 & Hb0 & Hin). apply in_map_iff in Hin as (u & Heq & Hu).
    injection Heq as Hb He. subst b0 e.
    apply list_elem_of_In, list_elem_of_filter in Hu as [Hown Hu].
    split; [apply list_elem_of_In; exact Hb0|]. exists u. auto.
  - intros (Hb & u & Hu & Hown & <-). exists b.
    split; [apply list_elem_of_In; exact Hb|].
    apply in_map_iff. exists u. split; [reflexivity|].
    apply list_elem_of_In, list_elem_of_filter. auto.
Qed.

(** X10.  Every business stays owned by a stored user: if each stored
    business has its owner in the user table, the same holds after
    [create_business] (the new business is owned by the user step 1
    settled on) and after [delete_business] (which removes no user). *)
Theorem handlers_keep_owners (d : Database) :
  owners_exist d ->
  (forall business_data user_data logo cu now,
     owners_exist
       (snd (run (create_business business_data user_data logo cu now) d)))
  /\
  (forall i cu, owners_exist (snd (run (delete_business i cu) d))).
Proof.
  intros Hown. split.
  - intros business_data user_data logo cu now. unfold owners_exist.
    assert (Hold :
      Forall
        (fun b =>
           exists u,
             u ∈ users
                   (snd (run (create_business business_data user_data logo
                                cu now) d)) /\
             user_id u = business_owner b)
        (businesses d)).
    { eapply Forall_impl; [exact Hown|]. intros b (u & Hu & Hid).
      exists u. split; [|exact Hid].
      destruct (create_business_users business_data user_data logo cu now d)
        as [-> | (ud & e & p & _ & _ & _ & _ & ->)]; [exact Hu|].
      apply elem_of_app. left. exact Hu. }
    destruct (create_business_cases business_data user_data logo cu now d)
      as [(bd & ud & e & n & m & u & _ & _ & _ & _ & _ & _ & _ & Hu & _ & _
           & Hb) | (_ & Hb)]; rewrite Hb; [|exact Hold].
    apply Forall_app. split; [exact Hold|].
    apply Forall_singleton. exists u. split; [exact Hu|reflexivity].
  - intros i cu. unfold owners_exist.
    destruct (decide (cu_role cu = "t_admin")) as [Hr|Hr].
    + rewrite (delete_business_run _ _ _ Hr).
      destruct (head _) as [found|]; [|exact Hown].
      cbn. apply Forall_forall. intros b' Hin.
      apply list_elem_of_filter in Hin as [_ Hin].
      unfold owners_exist in Hown. rewrite Forall_forall in Hown.
      exact (Hown b' Hin).
    + rewrite (delete_business_forbidden _ _ _ Hr).
      destruct (head _); exact Hown.
Qed.

Lemma db_sample_owners : owners_exist db_sample.
Proof.
  unfold owners_exist, db_sample. cbn.
  repeat constructor.
  - exists alice. split; [in_list | reflexivity].
  - exists bob. split; [in_list | reflexivity].
  - exists alice. split; [in_list | reflexivity].
Qed.

Lemma handlers_keep_owners_witness :
  owners_exist
    (snd (run (create_business (Some cargo_form) (Some carol_form) None
                 admin t0) db_sample)) /\
  owners_exist (snd (run (delete_business 2 admin) db_sample)).
Proof.
  destruct (handlers_keep_owners db_sample db_sample_owners)
    as [Hcreate Hdelete].
  split; [apply Hcreate | apply Hdelete].
Defined.

(** ** Registration, continued *)

(** X11.  For an email a stored user has, the password of the user form
    plays no part: the request answers and stores the same with any
    password put there, and the stored users, that user's password
    included, are as before. *)
Theorem create_business_known_email_ignores_password
    (business_data : option (gmap string string)) (ud : gmap string string)
    (logo : option (list byte)) (cu : CurrentUser) (now : datetime)
    (d : Database) (e : string) (u1 : User) :
  ud !! "email" = Some e -> u1 ∈ users d -> email u1 = e ->
  (forall p : string,
     run (create_business business_data (Some (<["password" := p]> ud)) logo
            cu now) d =
     run (create_business business_data (Some ud) logo cu now) d) /\
  users (snd (run (create_business business_data (Some ud) logo cu now) d))
  = users d.
Proof.
  intros He Hin Hemail.
  destruct (head_filter_is_Some (fun u => email u = e) _ _ Hin Hemail)
    as [u0 Hu0].
  split.
  - intros p. rewrite !create_business_run. unfold create_business_outcome.
    rewrite lookup_insert_ne by discriminate. rewrite He, Hu0. reflexivity.
  - rewrite create_business_run. unfold create_business_outcome.
    destruct business_data as [bd|]; [|reflexivity].
    rewrite He, Hu0. apply business_steps_users.
Qed.

Lemma create_business_known_email_ignores_password_witness :
  run (create_business (Some cargo_form)
         (Some (<["password" := "another"]> alice_form)) None admin t0)
    db_sample =
  run (create_business (Some cargo_form) (Some alice_form) None admin t0)
    db_sample /\
  users (snd (run (create_business (Some cargo_form) (Some alice_form) None
                     admin t0) db_sample))
  = users db_sample.
Proof.
  assert (Hin : alice ∈ users db_sample) by (unfold db_sample; in_list).
  destruct (create_business_known_email_ignores_password (Some cargo_form)
              alice_form None admin t0 db_sample "alice@example.com" alice
              eq_refl Hin eq_refl) as [Hany Husers].
  split; [apply Hany | exact Husers].
Defined.

(** X12.  A business that was just created can be fetched: after a
    request that answers 200, fetching the identifier it handed out (the
    next business identifier of the old state) answers 200 with the name
    and the mobile number of the business form, the caller as author, the
    and the uploaded logo in base64 (or [None] without an upload or with
    one of zero bytes). *)
Theorem create_then_get_business
    (bd ud : gmap string string) (logo : option (list byte))
    (cu : CurrentUser) (now : datetime) (d : Database) (n m : string) :
  db_wf d ->
  bd !! "name" = Some n -> bd !! "mobile" = Some m ->
  status_of (fst (run (create_business (Some bd) (Some ud) logo cu now) d))
    = 200 ->
  exists resp,
    run (get_business (next_business_id d))
      (snd (run (create_business (Some bd) (Some ud) logo cu now) d)) =
    (Ok (Dict resp),
     snd (run (create_business (Some bd) (Some ud) logo cu now) d)) /\
    resp !! "id" = Some (PInt (next_business_id d)) /\
    resp !! "name" = Some (PStr n) /\
    resp !! "mobile" = Some (PStr m) /\
    resp !! "created_by" = Some (PInt (cu_id cu)) /\
    resp !! "logo_image" =
      Some (match logo with
            | Some (x :: l) => PStr (b64encode (x :: l))
            | Some [] | None => PNone
            end).
Proof.
  intros Hwf Hn Hm Hok.
  pose proof (db_wf_create_business (Some bd) (Some ud) logo cu now d Hwf)
    as (_ & _ & _ & Hnd).
  destruct (create_business_cases (Some bd) (Some ud) logo cu now d)
    as [(bd' & ud' & e & n' & m' & u & Hbd & _ & _ & Hn' & Hm' & _ & _ & _
         & _ & _ & Hb) | ([Hst|Hst] & _)];
    [| rewrite Hok in Hst; discriminate | rewrite Hok in Hst; discriminate].
  injection Hbd as <-.
  assert (n' = n) by congruence. assert (m' = m) by congruence. subst n' m'.
  set (b := new_Business n m logo (user_id u) (cu_id cu) (cu_id cu) now
              (next_business_id d)) in *.
  assert (Hin :
    b ∈ businesses
          (snd (run (create_business (Some bd) (Some ud) logo cu now) d))).
  { rewrite Hb. apply elem_of_app. right. apply list_elem_of_here. }
  destruct (get_business_found (id b) _ b (head_filter_key id _ _ Hnd Hin))
    as (resp & Hrun & Hid & Hname & Hmobile & Hcb & _ & Hlogo & _ & _).
  exists resp. repeat split; assumption.
Qed.

Lemma create_then_get_business_witness :
  exists resp,
    run (get_business 4)
      (snd (run (create_business (Some cargo_form) (Some alice_form)
                   (Some ["M"%byte; "a"%byte; "n"%byte]) admin t0)
              db_sample)) =
    (Ok (Dict resp),
     snd (run (create_business (Some cargo_form) (Some alice_form)
                 (Some ["M"%byte; "a"%byte; "n"%byte]) admin t0)
            db_sample)) /\
    resp !! "name" = Some (PStr "Cargo") /\
    resp !! "mobile" = Some (PStr "9555555555") /\
    resp !! "logo_image" = Some (PStr "TWFu").
Proof.
  destruct (create_then_get_business cargo_form alice_form
              (Some ["M"%byte; "a"%byte; "n"%byte]) admin t0 db_sample
              "Cargo" "9555555555" db_sample_wf eq_refl eq_refl)
    as (resp & Hrun & _ & Hname & Hmobile & _ & Hlogo).
  - rewrite create_business_run. reflexivity.
  - exists resp. repeat split; assumption.
Defined.

(** X13.  A business that was just created is listed: after a request
    that answers 200, the listing of all businesses, taken from the start
    with a limit that covers every row, answers 200 with a list that holds
    the entry of the new business, under the email of the user form as
    ["owner_email"]. *)
Theorem create_then_list_businesses
    (bd ud : gmap string string) (logo : option (list byte))
    (cu : CurrentUser) (now : datetime) (d : Database) (e : string)
    (limit : nat) :
  ud !! "email" = Some e ->
  status_of (fst (run (create_business (Some bd) (Some ud) logo cu now) d))
    = 200 ->
  (length
     (join_owner
        (snd (run (create_business (Some bd) (Some ud) logo cu now) d)))
   <= limit)%nat ->
  exists l entry,
    run (get_all_businesses 0 limit)
      (snd (run (create_business (Some bd) (Some ud) logo cu now) d)) =
    (Ok (BusinessList l),
     snd (run (create_business (Some bd) (Some ud) logo cu now) d)) /\
    entry ∈ l /\
    entry !! "id" = Some (PInt (next_business_id d)) /\
    entry !! "owner_email" = Some (PStr e).
Proof.
  intros He Hok Hlimit.
  destruct (create_business_cases (Some bd) (Some ud) logo cu now d)
    as [(bd' & ud' & e' & n & m & u & _ & Hud & He' & _ & _ & _ & _ & Hu
         & Hemail & _ & Hb) | ([Hst|Hst] & _)];
    [| rewrite Hok in Hst; discriminate | rewrite Hok in Hst; discriminate].
  injection Hud as <-. assert (e' = e) by congruence. subst e'.
  set (d' := snd (run (create_business (Some bd) (Some ud) logo cu now) d))
    in *.
  set (b := new_Business n m logo (user_id u) (cu_id cu) (cu_id cu) now
              (next_business_id d)) in *.
  assert (Hrow : (b, e) ∈ join_owner d').
  { apply join_owner_elem. split.
    - rewrite Hb. apply elem_of_app. right. apply list_elem_of_here.
    - exists u. auto. }
  assert (Hrows : all_rows 0 limit d' = join_owner d').
  { unfold all_rows. rewrite drop_0. apply take_ge. exact Hlimit. }
  rewrite get_all_businesses_run, Hrows.
  destruct (join_owner d') as [|row rows] eqn:Hj; [inversion Hrow|].
  eexists. exists (serialized b e). split; [reflexivity|]. split; [|split].
  - apply (list_elem_of_fmap_2 (fun row => serialized (fst row) (snd row))
             _ (b, e)). exact Hrow.
  - apply (serialized_public_attr b e "id" (PInt (id b)));
      (discriminate || reflexivity).
  - apply serialized_owner_email.
Qed.

Lemma create_then_list_businesses_witness :
  exists l entry,
    run (get_all_businesses 0 100)
      (snd (run (create_business (Some cargo_form) (Some carol_form) None
                   admin t0) db_sample)) =
    (Ok (BusinessList l),
     snd (run (create_business (Some cargo_form) (Some carol_form) None
                 admin t0) db_sample)) /\
    entry ∈ l /\
    entry !! "id" = Some (PInt 4) /\
    entry !! "owner_email" = Some (PStr "carol@example.com").
Proof.
  apply (create_then_list_businesses cargo_form carol_form None admin t0
           db_sample "carol@example.com" 100 eq_refl).
  - rewrite create_business_run. reflexivity.
  - rewrite create_business_run. apply Nat.leb_le. reflexivity.
Defined.

(** ** The listings, continued *)

Lemma all_rows_elem skip limit d row :
  row ∈ all_rows skip limit d -> row ∈ join_owner d.
Proof.
  unfold all_rows. intros Hin.
  pose proof (elem_of_sublist _ _ _ Hin (sublist_take _ _)) as Hin1.
  exact (elem_of_sublist _ _ _ Hin1 (sublist_drop _ _)).
Qed.

(** X14.  The listing of all businesses is an inner join.  Every entry it
    answers with is the entry of a stored business whose owner is a stored
    user, and carries that user's email as ["owner_email"] and identifier
    as ["business_owner"].  A stored business whose owner is not in the
    user table has no entry in any page, although [get_business] finds
    it. *)
Theorem get_all_businesses_inner_join
    (skip limit : nat) (d : Database) :
  (forall l entry,
     fst (run (get_all_businesses skip limit) d) = Ok (BusinessList l) ->
     entry ∈ l ->
     exists b u,
       b ∈ businesses d /\ u ∈ users d /\ business_owner b = user_id u /\
       entry = serialized b (email u) /\
       entry !! "id" = Some (PInt (id b)) /\
       entry !! "business_owner" = Some (PInt (user_id u)) /\
       entry !! "owner_email" = Some (PStr (email u))) /\
  (forall b,
     b ∈ businesses d ->
     Forall (fun u => user_id u <> business_owner b) (users d) ->
     (forall e, (b, e) ∉ all_rows skip limit d) /\
     status_of (fst (run (get_business (id b)) d)) = 200).
Proof.
  split.
  - intros l entry Hl Hentry. rewrite get_all_businesses_run in Hl.
    assert (Hmap :
      l = map (fun row => serialized (fst row) (snd row))
            (all_rows skip limit d)).
    { destruct (all_rows skip limit d); [discriminate|].
      cbn [fst] in Hl. injection Hl as <-. reflexivity. }
    subst l. apply list_elem_of_fmap in Hentry as ([b e] & -> & Hrow).
    apply all_rows_elem, join_owner_elem in Hrow as (Hb & u & Hu & Hown & <-).
    exists b, u. cbn [fst snd]. repeat split; try assumption.
    + apply (serialized_public_attr b (email u) "id" (PInt (id b)));
        (discriminate || reflexivity).
    + rewrite serialized_business_owner, Hown. reflexivity.
    + apply serialized_owner_email.
  - intros b Hb Horphan. split.
    + intros e Hrow.
      apply all_rows_elem, join_owner_elem in Hrow as (_ & u & Hu & Hown & _).
      rewrite Forall_forall in Horphan. apply (Horphan u Hu). congruence.
    + destruct (head_filter_is_Some (fun b' => id b' = id b) _ _ Hb eq_refl)
        as [b1 Hb1].
      destruct (get_business_found (id b) d b1 Hb1) as (resp & -> & _).
      reflexivity.
Qed.

(** X14 on a state where Bolt's owner, Bob, is not a stored user: Bolt is
    in no page of the listing, and fetching it answers 200. *)
Lemma get_all_businesses_inner_join_witness :
  ((bolt, "bob@example.com")
     ∉ all_rows 0 100
         (mk_Database [root_user; alice] [acme; bolt; blank] 4 4)) /\
  status_of
    (fst (run (get_business 2)
            (mk_Database [root_user; alice] [acme; bolt; blank] 4 4))) = 200.
Proof.
  destruct (get_all_businesses_inner_join 0 100
              (mk_Database [root_user; alice] [acme; bolt; blank] 4 4))
    as [_ Horphan].
  destruct (Horphan bolt) as [Hnone Hfetch].
  - in_list.
  - repeat constructor; discriminate.
  - split; [apply Hnone | exact Hfetch].
Defined.

Lemma filter_none {A} (P : A -> Prop) `{!forall x, Decision (P x)}
    (l : list A) :
  Forall (fun x => ~ P x) l -> filter P l = [].
Proof.
  induction 1 as [|x l Hx _ IH]; [reflexivity|].
  rewrite filter_cons_False by assumption. exact IH.
Qed.

Lemma filter_key_unique {A} (key : A -> Z) (l : list A) (x : A) :
  NoDup (map key l) -> x ∈ l ->
  filter (fun y => key x = key y) l = [x].
Proof.
  induction l as [|y l IH]; intros Hnd Hx; [inversion Hx|].
  cbn in Hnd. apply NoDup_cons in Hnd as [Hy Hnd].
  apply elem_of_cons in Hx as [->|Hx].
  - rewrite filter_cons_True by reflexivity. f_equal.
    apply filter_none, Forall_forall. intros z Hz Heq.
    apply Hy. rewrite Heq. apply (list_elem_of_fmap_2 key). exact Hz.
  - rewrite filter_cons_False; [apply IH; assumption|].
    intros Heq. apply Hy. rewrite <- Heq.
    apply (list_elem_of_fmap_2 key). exact Hx.
Qed.

(** In the model the rows of the join come in table order, one for each
    business whose owner is stored; the order is the model's convention,
    the query asks for none. *)
Lemma join_owner_rows (d : Database) :
  db_wf d -> owners_exist d -> map fst (join_owner d) = businesses d.
Proof.
  intros (_ & _ & Hnd & _) Hown.
  unfold join_owner, owners_exist in *.
  induction (businesses d) as [|b bs IH]; [reflexivity|].
  apply Forall_cons in Hown as [(u & Hu & Hid) Hown].
  cbn [flat_map]. rewrite map_app, (IH Hown).
  rewrite <- Hid, (filter_key_unique user_id _ u Hnd Hu). reflexivity.
Qed.

(** X15.  When user identifiers are distinct and every business has its
    owner in the user table, the listing of all businesses, taken from
    the start with a limit that covers them, answers with exactly one
    entry for each stored business: the identifiers of the entries are
    the identifiers of the stored businesses, each as often as it is
    stored, in whatever order.  No business is dropped or repeated by the
    join. *)
Theorem get_all_businesses_lists_each_business_once
    (limit : nat) (d : Database) :
  db_wf d -> owners_exist d -> businesses d <> [] ->
  (length (businesses d) <= limit)%nat ->
  exists l,
    run (get_all_businesses 0 limit) d = (Ok (BusinessList l), d) /\
    length l = length (businesses d) /\
    map (fun entry : gmap string pyval => entry !! "id") l ≡ₚ
    map (fun b => Some (PInt (id b))) (businesses d).
Proof.
  intros Hwf Hown Hne Hlimit.
  pose proof (join_owner_rows d Hwf Hown) as Hrows.
  assert (Hlen : length (join_owner d) = length (businesses d))
    by (rewrite <- Hrows, length_map; reflexivity).
  assert (Hall : all_rows 0 limit d = join_owner d).
  { unfold all_rows. rewrite drop_0. apply take_ge. lia. }
  rewrite get_all_businesses_run, Hall.
  destruct (join_owner d) as [|row rows] eqn:Hj.
  { destruct (businesses d); [contradiction|discriminate]. }
  eexists. split; [reflexivity|]. split.
  - rewrite length_map. exact Hlen.
  - rewrite <- Hrows, !map_map.
    erewrite map_ext; [reflexivity|].
    intros [b e]. cbn [fst snd].
    apply (serialized_public_attr b e "id" (PInt (id b)));
      (discriminate || reflexivity).
Qed.

Lemma get_all_businesses_lists_each_business_once_witness :
  exists l,
    run (get_all_businesses 0 100) db_sample = (Ok (BusinessList l), db_sample)
    /\ length l = 3%nat /\
    map (fun entry : gmap string pyval => entry !! "id") l ≡ₚ
    [Some (PInt 1); Some (PInt 2); Some (PInt 3)].
Proof.
  apply (get_all_businesses_lists_each_business_once 100 db_sample
           db_sample_wf db_sample_owners).
  - discriminate.
  - apply Nat.leb_le. reflexivity.
Defined.

(** X17.  The edges of the pagination.  With [limit = 0] both listings
    answer 404 on every stored state, also one that holds businesses; and
    the listing of all businesses answers 404 as soon as [skip] reaches
    the number of rows of the owner join. *)
Theorem listing_pagination_edges
    (skip limit : nat) (cu : CurrentUser) (d : Database) :
  status_of (fst (run (get_all_businesses skip 0) d)) = 404 /\
  status_of (fst (run (get_my_businesses skip 0 cu) d)) = 404 /\
  ((length (join_owner d) <= skip)%nat ->
   run (get_all_businesses skip limit) d =
   (Exc (HTTPException 404 (Lit "No businesses found")), d)).
Proof.
  rewrite !get_all_businesses_run, get_my_businesses_run.
  unfold all_rows, my_rows. rewrite !take_0.
  split; [reflexivity|]. split; [reflexivity|].
  intros Hskip. rewrite drop_ge by exact Hskip. rewrite take_nil.
  reflexivity.
Qed.

Lemma listing_pagination_edges_witness :
  run (get_all_businesses 3 100) db_sample =
  (Exc (HTTPException 404 (Lit "No businesses found")), db_sample).
Proof.
  destruct (listing_pagination_edges 3 100 admin db_sample)
    as (_ & _ & Hskip).
  apply Hskip. apply Nat.leb_le. reflexivity.
Defined.

(** ** Deleting, continued *)

Lemma delete_business_ok_inv B cu c d d' :
  run (delete_business B cu) d = (Ok c, d') -> d' = delete_row B d.
Proof.
  intros Hrun. destruct (decide (cu_role cu = "t_admin")) as [Hr|Hr].
  - rewrite (delete_business_run _ _ _ Hr) in Hrun.
    destruct (head _); [congruence|discriminate].
  - rewrite (delete_business_forbidden _ _ _ Hr) in Hrun.
    destruct (head _); discriminate.
Qed.

Lemma head_filter_other_key (l : list Business) (B B' : Z) :
  B' <> B ->
  head (filter (fun b => id b = B') (filter (fun b => id b <> B) l)) =
  head (filter (fun b => id b = B') l).
Proof.
  intros Hne. induction l as [|b l IH]; [reflexivity|].
  destruct (decide (id b = B)) as [Hb|Hb].
  - rewrite (filter_cons_False (fun b => id b <> B)) by tauto.
    rewrite (filter_cons_False (fun b => id b = B')) by congruence.
    exact IH.
  - rewrite (filter_cons_True (fun b => id b <> B)) by exact Hb.
    destruct (decide (id b = B')) as [Hb'|Hb'].
    + rewrite !(filter_cons_True (fun b => id b = B')) by exact Hb'.
      reflexivity.
    + rewrite !(filter_cons_False (fun b => id b = B')) by exact Hb'.
      exact IH.
Qed.

(** X19.  A delete touches one identifier only.  After a delete of [B]
    that succeeds, fetching any other identifier answers what it answered
    before, and deleting [B] again, by any caller, answers 404 and changes
    nothing. *)
Theorem delete_business_frame
    (B : Z) (cu : CurrentUser) (c : content) (d d' : Database) :
  run (delete_business B cu) d = (Ok c, d') ->
  (forall B', B' <> B ->
     fst (run (get_business B') d') = fst (run (get_business B') d)) /\
  (forall cu',
     run (delete_business B cu') d' =
     (Exc (HTTPException 404 (Lit "Business not found")), d')).
Proof.
  intros Hrun. apply delete_business_ok_inv in Hrun. subst d'. split.
  - intros B' Hne. step. rewrite (head_filter_other_key _ _ _ Hne).
    destruct (head _); reflexivity.
  - intros cu'.
    assert (Hgone : head (filter (fun b => id b = B)
                            (businesses (delete_row B d))) = None).
    { apply head_filter_None, Forall_forall. intros b Hin.
      apply list_elem_of_filter in Hin as [Hne _]. exact Hne. }
    destruct (decide (cu_role cu' = "t_admin")) as [Hr|Hr].
    + rewrite (delete_business_run _ _ _ Hr), Hgone. reflexivity.
    + rewrite (delete_business_forbidden _ _ _ Hr), Hgone. reflexivity.
Qed.

Lemma delete_business_frame_witness :
  fst (run (get_business 1) (delete_row 2 db_sample)) =
  fst (run (get_business 1) db_sample) /\
  run (delete_business 2 admin) (delete_row 2 db_sample) =
  (Exc (HTTPException 404 (Lit "Business not found")), delete_row 2 db_sample).
Proof.
  assert (Hrun :
    run (delete_business 2 admin) db_sample =
    (Ok (Dict
           (<["message" := PStr "Business deleted successfully"]>
           (<["business_id" := PInt 2]> ∅))),
     delete_row 2 db_sample))
    by (rewrite (delete_business_run 2 admin db_sample eq_refl); reflexivity).
  destruct (delete_business_frame 2 admin _ db_sample _ Hrun)
    as [Hother Hagain].
  split; [apply Hother; discriminate | apply Hagain].
Defined.

(** ** Serialising, continued *)

(** X20.  No attribute whose name starts with an underscore reaches a
    listing: in every entry either listing answers with, such a key is
    absent.  In particular the ORM's [_sa_instance_state] is not sent. *)
Theorem listings_hide_private_attributes
    (skip limit : nat) (cu : CurrentUser) (d : Database)
    (l : list (gmap string pyval)) (entry : gmap string pyval)
    (key : string) :
  fst (run (get_all_businesses skip limit) d) = Ok (BusinessList l) \/
  fst (run (get_my_businesses skip limit cu) d) = Ok (BusinessList l) ->
  entry ∈ l -> startswith key "_" = true ->
  entry !! key = None.
Proof.
  intros Hl Hentry Hprivate.
  assert (Hser : exists b e, entry = serialized b e).
  { assert (Hmap : exists rows : list (Business * string),
              l = map (fun row => serialized (fst row) (snd row)) rows).
    { destruct Hl as [Hl|Hl].
      - rewrite get_all_businesses_run in Hl.
        exists (all_rows skip limit d).
        destruct (all_rows skip limit d); [discriminate|].
        cbn [fst] in Hl. injection Hl as <-. reflexivity.
      - rewrite get_my_businesses_run in Hl.
        exists (my_rows skip limit cu d).
        destruct (my_rows skip limit cu d); [discriminate|].
        cbn [fst] in Hl. injection Hl as <-. reflexivity. }
    destruct Hmap as (rows & ->).
    apply list_elem_of_fmap in Hentry as ([b e] & -> & _).
    exists b, e. reflexivity. }
  destruct Hser as (b & e & ->).
  assert (Hk1 : key <> "owner_email") by (intros ->; discriminate).
  assert (Hk2 : key <> "logo_image") by (intros ->; discriminate).
  unfold serialized. cbn zeta. rewrite lookup_insert_ne by congruence.
  assert (Hnone :
    (handle_datetime <$>
       filter (fun kv => startswith (fst kv) "_" = false) (vars b))
      !! key = None).
  { rewrite lookup_fmap.
    rewrite (map_lookup_filter_None_2 _ (vars b) key); [reflexivity|].
    right. intros v _ Hpub. cbn [fst] in Hpub.
    rewrite Hprivate in Hpub. discriminate. }
  destruct (logo_image b); [rewrite lookup_insert_ne by congruence|];
    exact Hnone.
Qed.

Lemma listings_hide_private_attributes_witness :
  Forall (fun entry => entry !! "_sa_instance_state" = None)
    (map (fun row => serialized (fst row) (snd row))
       (all_rows 0 100 db_sample)).
Proof.
  apply Forall_forall. intros entry Hentry.
  apply (listings_hide_private_attributes 0 100 admin db_sample
           (map (fun row => serialized (fst row) (snd row))
              (all_rows 0 100 db_sample)) entry "_sa_instance_state").
  - left. rewrite get_all_businesses_run. reflexivity.
  - exact Hentry.
  - reflexivity.
Defined.

(** X21.  The fetch and the listing agree wherever the logo is not a
    value of zero bytes: for a stored business whose logo is absent or has
    at least one byte, every field of the answer of [get_business] is in
    the business's listing entry with the same value.  The answer of
    [get_business] has no ["business_owner"] and no ["owner_email"]. *)
Theorem get_business_agrees_with_listing
    (d : Database) (b : Business) (owner_email : string) :
  db_wf d -> b ∈ businesses d -> logo_image b <> Some [] ->
  exists resp,
    run (get_business (id b)) d = (Ok (Dict resp), d) /\
    (forall key v,
       resp !! key = Some v -> serialized b owner_email !! key = Some v) /\
    resp !! "business_owner" = None /\
    resp !! "owner_email" = None.
Proof.
  intros (_ & _ & _ & Hnd) Hin Hlogo.
  pose proof (head_filter_key id _ _ Hnd Hin) as Hb.
  step. rewrite Hb. cbn. eexists. split; [reflexivity|].
  split; [|split; reflexivity].
  intros key v Hkv.
  repeat (apply lookup_insert_Some in Hkv as [[<- <-]|[_ Hkv]]);
    [..|rewrite lookup_empty in Hkv; discriminate].
  - apply (serialized_public_attr b owner_email "id" (PInt (id b)));
      (discriminate || reflexivity).
  - apply (serialized_public_attr b owner_email "name" (PStr (name b)));
      (discriminate || reflexivity).
  - apply (serialized_public_attr b owner_email "mobile" (PStr (mobile b)));
      (discriminate || reflexivity).
  - rewrite serialized_logo_image.
    destruct (logo_image b) as [[|x l]|]; [contradiction| |]; reflexivity.
  - apply (serialized_public_attr b owner_email "created_by"
             (PInt (created_by b))); (discriminate || reflexivity).
  - apply (serialized_public_attr b owner_email "updated_by"
             (PInt (updated_by b))); (discriminate || reflexivity).
  - apply (serialized_public_attr b owner_email "created_at"
             (PDatetime (created_at b))); (discriminate || reflexivity).
  - apply (serialized_public_attr b owner_email "updated_at"
             (PDatetime (updated_at b))); (discriminate || reflexivity).
Qed.

Lemma get_business_agrees_with_listing_witness :
  exists resp,
    run (get_business 1) db_sample = (Ok (Dict resp), db_sample) /\
    resp !! "logo_image" = Some (PStr "TWE=") /\
    serialized acme "alice@example.com" !! "logo_image"
    = Some (PStr "TWE=").
Proof.
  assert (Hin : acme ∈ businesses db_sample) by (unfold db_sample; in_list).
  assert (Hlogo : logo_image acme <> Some []) by discriminate.
  destruct (get_business_agrees_with_listing db_sample acme
              "alice@example.com" db_sample_wf Hin Hlogo)
    as (resp & Hrun & Hsub & _).
  exists resp. split; [exact Hrun|].
  assert (Hl : resp !! "logo_image" = Some (PStr "TWE=")).
  { pose proof Hrun as Hval. vm_compute in Hval. injection Hval as <-.
    reflexivity. }
  split; [exact Hl | apply Hsub; exact Hl].
Defined.
